(** * The IS-IS configuration handler of VyOS: validation and application

    A shallow embedding of [src/conf_mode/protocols_isis.py]: the functions
    [verify], [generate] and [apply], the Python values they inspect and the
    exceptions they raise, followed by the properties the specification
    states about them. *)

From Stdlib Require Import String Ascii List Bool Arith ZArith Lia.
Import ListNotations.
Open Scope string_scope.

(** ** Python values *)

(** A ConfigDict maps string keys to nested mappings, sequences of strings
    or scalar strings.  A mapping keeps its insertion order, which is the
    order in which a [for] loop visits it, so it is an association list. *)
#[warnings="-register-all"]
Inductive value : Type :=
| VStr (s : string)
| VList (l : list string)
| VDict (d : list (string * value)).

Definition dict : Type := list (string * value).

(** The exceptions that the handler can end in.  [ConfigError] is the only
    one the entry point catches and prints; the others are Python's own. *)
Inductive exn : Type :=
| ConfigError (msg : string)
| KeyError (key : string)
| NameError (name : string)
| TypeError
| ValueError
| AttributeError
| CommitError.

Inductive result (A : Type) : Type :=
| Ret (a : A)
| Raise (e : exn).
Arguments Ret {A} a.
Arguments Raise {A} e.

Definition bind {A B : Type} (m : result A) (k : A -> result B) : result B :=
  match m with
  | Ret a => k a
  | Raise e => Raise e
  end.

Notation "x <- m ;; k" := (bind m (fun x => k))
  (at level 61, m at next level, right associativity).
Notation "m ;;; k" := (bind m (fun _ => k))
  (at level 61, right associativity).

(** [for x in xs: body], stopping at the first exception. *)
Fixpoint for_each {A : Type} (xs : list A) (body : A -> result unit) : result unit :=
  match xs with
  | [] => Ret tt
  | x :: rest => body x ;;; for_each rest body
  end.

(** ** Operations on mappings, sequences and strings *)

(** [d.get(k)]: the value stored under [k]. *)
Fixpoint lookup (k : string) (d : dict) : option value :=
  match d with
  | [] => None
  | (k', v) :: rest => if String.eqb k k' then Some v else lookup k rest
  end.

(** [k in d] for a mapping [d]. *)
Definition contains (k : string) (d : dict) : bool :=
  match lookup k d with
  | Some _ => true
  | None => false
  end.

(** [d[k]], which raises [KeyError] when the key is missing. *)
Definition getitem (d : dict) (k : string) : result value :=
  match lookup k d with
  | Some v => Ret v
  | None => Raise (KeyError k)
  end.

(** [d[k] = v]: an existing key keeps its place, a new one goes last. *)
Fixpoint setitem (k : string) (v : value) (d : dict) : dict :=
  match d with
  | [] => [(k, v)]
  | (k', v') :: rest =>
      if String.eqb k k' then (k, v) :: rest else (k', v') :: setitem k v rest
  end.

Definition mem (s : string) (l : list string) : bool :=
  existsb (String.eqb s) l.

(** [a in b] for two strings: [a] occurs in [b]. *)
Fixpoint is_substring (a b : string) : bool :=
  if String.prefix a b then true
  else match b with
       | EmptyString => false
       | String _ b' => is_substring a b'
       end.

Definition chars (s : string) : list string :=
  map (fun c => String c EmptyString) (list_ascii_of_string s).

(** What [for x in v], [set(v)] and [list(v)] visit: the keys of a
    mapping, the elements of a sequence, the characters of a string. *)
Definition py_iter (v : value) : list string :=
  match v with
  | VStr s => chars s
  | VList l => l
  | VDict d => map fst d
  end.

(** [k in v] for a string [k]. *)
Definition py_in (k : string) (v : value) : bool :=
  match v with
  | VStr s => is_substring k s
  | VList l => mem k l
  | VDict d => contains k d
  end.

(** [v[k]] for a string [k]: only a mapping can be indexed by a string. *)
Definition py_getitem (v : value) (k : string) : result value :=
  match v with
  | VDict d => getitem d k
  | _ => Raise TypeError
  end.

(** [v.items()]: only a mapping has it. *)
Definition py_items (v : value) : result (list (string * value)) :=
  match v with
  | VDict d => Ret d
  | _ => Raise AttributeError
  end.

(** Truth value of an object in a condition. *)
Definition truthy (v : value) : bool :=
  match v with
  | VStr s => negb (String.eqb s "")
  | VList l => negb (Nat.eqb (List.length l) 0)
  | VDict d => negb (Nat.eqb (List.length d) 0)
  end.

(** The same for a value that may be [None]. *)
Definition truthy_opt (o : option value) : bool :=
  match o with
  | Some v => truthy v
  | None => false
  end.

Fixpoint list_eqb (l m : list string) : bool :=
  match l, m with
  | [], [] => true
  | x :: l', y :: m' => String.eqb x y && list_eqb l' m'
  | _, _ => false
  end.

(** [a == b].  Two mappings are equal when they hold the same keys with
    equal values, whatever their order. *)
Fixpoint py_eq (a b : value) {struct a} : bool :=
  match a, b with
  | VStr s, VStr t => String.eqb s t
  | VList l, VList m => list_eqb l m
  | VDict d, VDict e =>
      Nat.eqb (List.length d) (List.length e) &&
      (fix all_in (d : list (string * value)) : bool :=
         match d with
         | [] => true
         | (k, v) :: rest =>
             match lookup k e with
             | Some w => py_eq v w
             | None => false
             end && all_in rest
         end) d
  | _, _ => false
  end.

(** [s.replace(a, b)] for one-character [a] and [b]. *)
Fixpoint replace_char (a b : ascii) (s : string) : string :=
  match s with
  | EmptyString => EmptyString
  | String c rest =>
      String (if Ascii.eqb c a then b else c) (replace_char a b rest)
  end.

(** [s.split(sep)] for a one-character separator. *)
Fixpoint split_on (sep : ascii) (s : string) : list string :=
  match s with
  | EmptyString => [EmptyString]
  | String c rest =>
      if Ascii.eqb c sep then EmptyString :: split_on sep rest
      else match split_on sep rest with
           | [] => [String c EmptyString]
           | w :: ws => String c w :: ws
           end
  end.

(** ** [int(s)] *)

(** Characters are code points below 256.  These are the ones
    [str.isspace] accepts there. *)
Definition is_space (c : ascii) : bool :=
  let n := nat_of_ascii c in
  ((9 <=? n)%nat && (n <=? 13)%nat) || ((28 <=? n)%nat && (n <=? 32)%nat)
  || (n =? 133)%nat || (n =? 160)%nat.

Definition is_digit (c : ascii) : bool :=
  let n := nat_of_ascii c in (48 <=? n)%nat && (n <=? 57)%nat.

Definition digit_value (c : ascii) : Z := Z.of_nat (nat_of_ascii c - 48).

Fixpoint lstrip (l : list ascii) : list ascii :=
  match l with
  | c :: rest => if is_space c then lstrip rest else l
  | [] => []
  end.

Definition strip (l : list ascii) : list ascii :=
  rev (lstrip (rev (lstrip l))).

(** Decimal digits, where single underscores may separate digits. *)
Fixpoint digits (acc : Z) (after_digit : bool) (l : list ascii) : option Z :=
  match l with
  | [] => if after_digit then Some acc else None
  | c :: rest =>
      if is_digit c then digits (10 * acc + digit_value c) true rest
      else if Ascii.eqb c "_" then
             if after_digit then digits acc false rest else None
           else None
  end.

(** [int(s)] for a string: optional surrounding white space, an optional
    sign, then digits; [None] stands for [ValueError]. *)
Definition int_of_str (s : string) : option Z :=
  match strip (list_ascii_of_string s) with
  | c :: rest =>
      if Ascii.eqb c "-" then option_map Z.opp (digits 0 false rest)
      else if Ascii.eqb c "+" then digits 0 false rest
      else digits 0 false (c :: rest)
  | [] => None
  end.

(** [int(x)] for what [dict_search] returned. *)
Definition py_int (o : option value) : result Z :=
  match o with
  | Some (VStr s) =>
      match int_of_str s with
      | Some z => Ret z
      | None => Raise ValueError
      end
  | _ => Raise TypeError
  end.

(** Modelled from the spec: [vyos.util.dict_search] is not among the
    sources.  It follows a dot-separated path through nested mappings and
    returns the value found there, or [None] when a key on the path is
    absent (or what it is looked up in is not a mapping). *)
Fixpoint dict_search_parts (parts : list string) (v : value) : option value :=
  match parts with
  | [] => Some v
  | p :: rest =>
      match v with
      | VDict d =>
          match lookup p d with
          | Some w => dict_search_parts rest w
          | None => None
          end
      | _ => None
      end
  end.

Definition dict_search (path : string) (my_dict : dict) : option value :=
  if String.eqb path "" then None
  else dict_search_parts (split_on "." path) (VDict my_dict).

(** ** Validation: [verify] *)

(** [not isis or 'deleted' in isis]: the tree is being removed. *)
Definition removal (isis : dict) : bool :=
  Nat.eqb (List.length isis) 0 || contains "deleted" isis.

Section Verify.

(** The host's interface state, [vyos.util.get_interface_config]: the
    mapping that describes a network interface ([master] and the rest). *)
Variable get_interface_config : string -> dict.

(** The order in which Python visits a [set] that holds these strings;
    it depends on the hash seed of the process. *)
Variable set_iter : list string -> list string.

(** [repr] of a sequence or mapping, for messages that format a value. *)
Variable repr : value -> string.

(** [str(v)], as an f-string formats a value. *)
Definition py_str (v : value) : string :=
  match v with
  | VStr s => s
  | _ => repr v
  end.

(** Lines 77-85: the mandatory fields, in the order the code asks. *)
Definition mandatory_fields (isis : dict) : result unit :=
  if negb (contains "domain" isis) then
    Raise (ConfigError "Routing domain name/tag must be set!")
  else if negb (contains "net" isis) then
    Raise (ConfigError "Network entity is mandatory!")
  else if negb (contains "interface" isis) then
    Raise (ConfigError "Interface used for routing updates is mandatory!")
  else Ret tt.

(** Lines 87-96: every interface must be bound to the requesting VRF. *)
Definition vrf_membership (isis : dict) : result unit :=
  interfaces <- getitem isis "interface" ;;
  for_each (py_iter interfaces) (fun interface =>
    if contains "vrf" isis then
      vrf <- getitem isis "vrf" ;;
      let tmp := get_interface_config interface in
      if negb (contains "master" tmp)
         || negb (match lookup "master" tmp with
                  | Some master => py_eq master vrf
                  | None => false
                  end)
      then Raise (ConfigError ("Interface " ++ interface
                               ++ " is not a member of VRF " ++ py_str vrf ++ "!"))
      else Ret tt
    else Ret tt).

(** Lines 98-101: md5 and plaintext-password exclude each other. *)
Definition area_password_encryption (isis : dict) : result unit :=
  if contains "area_password" isis then
    encryption <- getitem isis "encryption" ;;
    if mem "md5" (py_iter encryption)
       && mem "plaintext_password" (py_iter encryption)
    then Raise (ConfigError
           "Can not use both md5 and plaintext-password for ISIS area-password!")
    else Ret tt
  else Ret tt.

Definition required_timers : list string :=
  ["holddown"; "init_delay"; "long_delay"; "short_delay"; "time_to_learn"].

(** Lines 103-113: the timers of [spf_delay_ietf]. *)
Definition spf_delay_timers (isis : dict) : result unit :=
  if contains "spf_delay_ietf" isis then
    spf_delay_ietf <- getitem isis "spf_delay_ietf" ;;
    let exist_timers :=
      filter (fun elm_timer => py_in elm_timer spf_delay_ietf) required_timers in
    let exist_timers :=
      filter (fun t => negb (mem t exist_timers)) required_timers in
    if (0 <? List.length exist_timers)%nat then
      Raise (ConfigError ("All types of delay must be specified: "
               ++ replace_char "_" "-" (String.concat ", " (set_iter exist_timers))))
    else Ret tt
  else Ret tt.

(** Lines 115-130: redistribution levels.  Both messages are f-strings
    that mention [process], a name that nothing in the module binds, so
    building either of them raises [NameError] before [ConfigError] is
    constructed. *)
Definition redistribute_levels (isis : dict) : result unit :=
  if contains "redistribute" isis then
    level <- match lookup "level" isis with
             | None => Ret ""
             | Some (VStr s) => Ret s
             | Some _ => Raise AttributeError
             end ;;
    let proc_level := replace_char "-" "_" level in
    for_each ["ipv4"] (fun afi =>
      redistribute <- getitem isis "redistribute" ;;
      if negb (py_in afi redistribute) then Ret tt
      else
        afi_config <- py_getitem redistribute afi ;;
        protocols <- py_items afi_config ;;
        for_each protocols (fun '(proto, proto_config) =>
          if negb (py_in "level_1" proto_config)
             && negb (py_in "level_2" proto_config)
          then Raise (NameError "process")
          else
            levels <- py_items proto_config ;;
            for_each levels (fun '(redistr_level, redistr_config) =>
              if negb (String.eqb proc_level "")
                 && negb (String.eqb proc_level "level_1_2")
                 && negb (String.eqb proc_level redistr_level)
              then Raise (NameError "process")
              else Ret tt)))
  else Ret tt.

(** Lines 133-143 and 145-155: the two label blocks are checked by the
    same code, up to the block's name and the two messages. *)
Definition label_block (block msg_both msg_order : string) (isis : dict)
  : result unit :=
  if truthy_opt (dict_search ("segment_routing." ++ block) isis) then
    let high_label_value :=
      dict_search ("segment_routing." ++ block ++ ".high_label_value") isis in
    let low_label_value :=
      dict_search ("segment_routing." ++ block ++ ".low_label_value") isis in
    if (truthy_opt low_label_value && negb (truthy_opt high_label_value))
       || (truthy_opt high_label_value && negb (truthy_opt low_label_value))
    then Raise (ConfigError msg_both)
    else
      low <- py_int low_label_value ;;
      high <- py_int high_label_value ;;
      if (low >? high)%Z then Raise (ConfigError msg_order) else Ret tt
  else Ret tt.

Definition global_block : dict -> result unit :=
  label_block "global_block"
    "Segment routing global block requires both low and high value!"
    "Segment routing global block low value must be lower than high value".

Definition local_block : dict -> result unit :=
  label_block "local_block"
    "Segment routing local block requires both high and low value!"
    "Segment routing local block low value must be lower than high value".

Definition verify (isis : dict) : result unit :=
  if removal isis then Ret tt
  else
    mandatory_fields isis ;;;
    vrf_membership isis ;;;
    area_password_encryption isis ;;;
    spf_delay_timers isis ;;;
    redistribute_levels isis ;;;
    global_block isis ;;;
    local_block isis.

End Verify.

(** ** Rendering: [generate] *)

Section Generate.

(** The templating collaborator, [vyos.template.render_to_string]. *)
Variable render_to_string : string -> dict -> string.

(** [generate] stores the text under [new_frr_config]; the mapping it
    was given is returned with that entry set. *)
Definition generate (isis : dict) : dict :=
  if removal isis then setitem "new_frr_config" (VStr "") isis
  else setitem "new_frr_config"
         (VStr (render_to_string "frr/isis.frr.tmpl" isis)) isis.

End Generate.

(** ** The daemon's configuration text *)

Definition newline : ascii := ascii_of_nat 10.

(** A line that opens a block of the daemon's configuration: it does not
    begin with white space.  The lines of a block follow it, indented. *)
Definition top_level (line : string) : bool :=
  match line with
  | String c _ => negb (is_space c)
  | EmptyString => false
  end.

(** The lines of a text handed to the daemon interface; an empty text has
    none. *)
Definition text_lines (text : string) : list string :=
  if String.eqb text "" then [] else split_on newline text.

Section Frr.

(** [re.match(pattern, line) is not None], from Python's library. *)
Variable re_match : string -> string -> bool.

(** Modelled from the spec: [vyos.frr.FRRConfig] is not among the
    sources.  The snapshot is the daemon's configuration as a list of
    lines.  A section is addressed by a regular-expression anchor: it is
    a top-level line that the anchor matches, together with the indented
    lines below it.  [modify_section] replaces every such section by the
    replacement text, which removes the section when that text is empty. *)
Fixpoint modify_section_from (inside : bool) (start_pattern : string)
    (replacement : list string) (config : list string) : list string :=
  match config with
  | [] => []
  | line :: rest =>
      if top_level line then
        if re_match start_pattern line
        then (replacement ++ modify_section_from true start_pattern replacement rest)%list
        else line :: modify_section_from false start_pattern replacement rest
      else if inside then modify_section_from true start_pattern replacement rest
      else line :: modify_section_from false start_pattern replacement rest
  end.

Definition modify_section (start_pattern replacement : string)
    (config : list string) : list string :=
  modify_section_from false start_pattern (text_lines replacement) config.

(** Modelled from the spec: [add_before] of the same class.  New content
    that is not empty is inserted immediately before the first top-level
    line that the anchor matches; a snapshot without such a line is left
    as it is.  The content is a text; a sequence stands for its lines and
    a mapping adds nothing. *)
Fixpoint insert_before (before_pattern : string) (addition : list string)
    (config : list string) : option (list string) :=
  match config with
  | [] => None
  | line :: rest =>
      if top_level line && re_match before_pattern line
      then Some (addition ++ line :: rest)%list
      else option_map (cons line) (insert_before before_pattern addition rest)
  end.

Definition addition_lines (addition : value) : list string :=
  match addition with
  | VStr text => text_lines text
  | VList lines => lines
  | VDict _ => []
  end.

Definition add_before (before_pattern : string) (addition : value)
    (config : list string) : list string :=
  match addition_lines addition with
  | [] => config
  | lines =>
      match insert_before before_pattern lines config with
      | Some config' => config'
      | None => config
      end
  end.

(** *** What [apply] does to the snapshot (lines 172-185) *)

(** [' vrf ' + isis['vrf']], or the empty string. *)
Definition vrf_suffix (isis : dict) : result string :=
  if contains "vrf" isis then
    vrf <- getitem isis "vrf" ;;
    match vrf with
    | VStr name => Ret (" vrf " ++ name)
    | _ => Raise TypeError
    end
  else Ret "".

Definition router_anchor (vrf : string) : string :=
  "^router isis \S+" ++ vrf ++ "$".

Definition interface_anchor (interface vrf : string) : string :=
  "^interface " ++ interface ++ vrf ++ "$".

Definition before_anchor : string :=
  "(ip prefix-list .*|route-map .*|line vty)".

(** The loop over [['interface', 'interface_removed']] and, inside it,
    over the interfaces found under the key. *)
Definition remove_interfaces (isis : dict) (vrf : string)
    (frr_cfg : list string) : list string :=
  fold_left (fun cfg key =>
      match lookup key isis with
      | None => cfg
      | Some interfaces =>
          fold_left (fun cfg interface =>
              modify_section (interface_anchor interface vrf) "" cfg)
            (py_iter interfaces) cfg
      end)
    ["interface"; "interface_removed"] frr_cfg.

(** The snapshot that [apply] commits, from the one it loaded. *)
Definition apply_snapshot (isis : dict) (frr_cfg : list string)
  : result (list string) :=
  vrf <- vrf_suffix isis ;;
  let frr_cfg := modify_section (router_anchor vrf) "" frr_cfg in
  let frr_cfg := remove_interfaces isis vrf frr_cfg in
  new_frr_config <- getitem isis "new_frr_config" ;;
  Ret (add_before before_anchor new_frr_config frr_cfg).

(** The anchors of the sections that the handler owns, in the order in
    which [apply] removes them. *)
Definition owned_anchors (isis : dict) (vrf : string) : list string :=
  router_anchor vrf
  :: flat_map (fun key =>
       match lookup key isis with
       | None => []
       | Some interfaces =>
           map (fun interface => interface_anchor interface vrf)
             (py_iter interfaces)
       end)
     ["interface"; "interface_removed"].

(** Removing the sections of a list of anchors, one anchor after the
    other. *)
Definition remove_sections (anchors : list string) (config : list string)
  : list string :=
  fold_left (fun cfg anchor => modify_section anchor "" cfg) anchors config.

(** The content consists of sections that the handler owns: the
    handler's own removal leaves nothing of it. *)
Definition owned_content (isis : dict) (vrf : string) (content : value) : Prop :=
  remove_sections (owned_anchors isis vrf) (addition_lines content) = [].

(** No line of the snapshot opens a section of this anchor. *)
Definition clean (anchor : string) (config : list string) : Prop :=
  forall line, In line config ->
    top_level line && re_match anchor line = false.

(** *** The daemon and [apply] *)

(** Modelled from the spec: the daemons behind [load_configuration] and
    [commit_configuration], an external collaborator.  Loading reads the
    running configuration of the named daemon; a commit hands it the
    snapshot, which it takes or refuses; a failure of either propagates
    as an error. *)
Variable daemon : Type.
Variable show_running : string -> daemon -> option (list string).
Variable reload : string -> list string -> daemon -> option daemon.

(** The daemon, and how many times [commit_configuration] was called. *)
Record world : Type := World { frr : daemon; commits : nat }.

Definition io (A : Type) : Type := world -> result A * world.

Definition io_ret {A : Type} (a : A) : io A := fun w => (Ret a, w).

Definition io_bind {A B : Type} (m : io A) (k : A -> io B) : io B :=
  fun w =>
    match m w with
    | (Ret a, w') => k a w'
    | (Raise e, w') => (Raise e, w')
    end.

Definition lift {A : Type} (r : result A) : io A := fun w => (r, w).

Notation "x <~ m ;; k" := (io_bind m (fun x => k))
  (at level 61, m at next level, right associativity).

Definition load_configuration (name : string) : io (list string) :=
  fun w =>
    match show_running name (frr w) with
    | Some config => (Ret config, w)
    | None => (Raise CommitError, w)
    end.

Definition commit_configuration (name : string) (config : list string)
  : io unit :=
  fun w =>
    match reload name config (frr w) with
    | Some d => (Ret tt, World d (S (commits w)))
    | None => (Raise CommitError, World (frr w) (S (commits w)))
    end.

(** [for a in range(n): body] *)
Fixpoint for_range (n : nat) (body : io unit) : io unit :=
  match n with
  | O => io_ret tt
  | S n' => _ <~ body ;; for_range n' body
  end.

Definition frr_daemon : string := "isisd".

Definition apply (isis : dict) : io unit :=
  frr_cfg <~ load_configuration frr_daemon ;;
  frr_cfg <~ lift (apply_snapshot isis frr_cfg) ;;
  _ <~ commit_configuration frr_daemon frr_cfg ;;
  new_frr_config <~ lift (getitem isis "new_frr_config") ;;
  if py_eq new_frr_config (VStr "")
  then for_range 5 (commit_configuration frr_daemon frr_cfg)
  else io_ret tt.

End Frr.

Arguments frr {daemon} w.
Arguments commits {daemon} w.

(** ** Retrieval: [get_config] *)

Section GetConfig.

(** The configuration backend, [vyos.config.Config]: the subtree below a
    path as a mapping with mangled keys, whether a path exists, and the
    children of a path that the commit removes ([node_changed]). *)
Variable get_config_dict : list string -> dict.
Variable conf_exists : list string -> bool.
Variable node_changed : list string -> list string.

Definition base_path : list string := ["protocols"; "isis"].

(** [vrf = None; if len(argv) > 1: vrf = argv[1]] *)
Definition argv_vrf (argv : list string) : option string :=
  match argv with
  | _ :: vrf :: _ => Some vrf
  | _ => None
  end.

(** The truth value of [vrf]: it is given and not the empty string. *)
Definition vrf_given (vrf : option string) : bool :=
  match vrf with
  | Some name => negb (String.eqb name "")
  | None => false
  end.

(** [vrf and ['vrf', 'name', vrf, 'protocols', 'isis'] or base_path] *)
Definition isis_base (vrf : option string) : list string :=
  match vrf with
  | Some name =>
      if vrf_given vrf then ["vrf"; "name"; name; "protocols"; "isis"]
      else base_path
  | None => base_path
  end.

Definition get_config (argv : list string) : dict :=
  let vrf := argv_vrf argv in
  let base := isis_base vrf in
  let isis := get_config_dict base in
  let isis :=
    match vrf with
    | Some name => if vrf_given vrf then setitem "vrf" (VStr name) isis else isis
    | None => isis
    end in
  let interfaces_removed := node_changed (base ++ ["interface"])%list in
  let isis :=
    if negb (Nat.eqb (List.length interfaces_removed) 0)
    then setitem "interface_removed" (VList interfaces_removed) isis
    else isis in
  if negb (conf_exists base) then setitem "deleted" (VStr "") isis
  else isis.

End GetConfig.

(** ** The entry point *)

(** How a run of the script ends: it exits with a status after printing
    some lines, or an exception that nothing catches ends it. *)
Inductive outcome : Type :=
| Exit (status : nat) (printed : list string)
| Traceback (e : exn).

Section Main.

Variable get_config_dict : list string -> dict.
Variable conf_exists : list string -> bool.
Variable node_changed : list string -> list string.
Variable get_interface_config : string -> dict.
Variable set_iter : list string -> list string.
Variable repr : value -> string.
Variable render_to_string : string -> dict -> string.
Variable re_match : string -> string -> bool.
Variable daemon : Type.
Variable show_running : string -> daemon -> option (list string).
Variable reload : string -> list string -> daemon -> option daemon.

(** [except ConfigError as e: print(e); exit(1)] *)
Definition handled (e : exn) : outcome :=
  match e with
  | ConfigError msg => Exit 1 [msg]
  | _ => Traceback e
  end.

(** Lines 196-204: the four stages in a row, under one handler. *)
Definition main (argv : list string) (w : world daemon)
  : outcome * world daemon :=
  let c := get_config get_config_dict conf_exists node_changed argv in
  match verify get_interface_config set_iter repr c with
  | Raise e => (handled e, w)
  | Ret _ =>
      let c := generate render_to_string c in
      match apply re_match daemon show_running reload c w with
      | (Ret _, w') => (Exit 0 [], w')
      | (Raise e, w') => (handled e, w')
      end
  end.

End Main.

(** ** A matcher for the anchors

    Python's [re.match] on the part of the pattern language that the
    handler's anchors are written in: literal characters, [.], [\S], [\s],
    [\d], escaped punctuation, groups, alternation, [*], [+], [?], [^] and
    [$].  A pattern outside this fragment matches nothing here. *)
Module Re.

Inductive regex : Type :=
| Void
| Eps
| Chr (c : ascii)
| AnyChar
| Class (p : ascii -> bool)
| Bol
| Eol
| Alt (r1 r2 : regex)
| Seq (r1 r2 : regex)
| Star (r : regex).

Definition alt (r1 r2 : regex) : regex :=
  match r1, r2 with
  | Void, _ => r2
  | _, Void => r1
  | _, _ => Alt r1 r2
  end.

Definition seq (r1 r2 : regex) : regex :=
  match r1, r2 with
  | Void, _ => Void
  | _, Void => Void
  | Eps, _ => r2
  | _, _ => Seq r1 r2
  end.

(** Whether [r] matches the empty string at this position: [start] says
    that nothing was consumed yet, [rest] is what is still to be read. *)
Fixpoint nullable (start : bool) (rest : list ascii) (r : regex) : bool :=
  match r with
  | Void | Chr _ | AnyChar | Class _ => false
  | Eps | Star _ => true
  | Bol => start
  | Eol => match rest with
           | [] => true
           | [c] => Ascii.eqb c newline
           | _ => false
           end
  | Alt r1 r2 => nullable start rest r1 || nullable start rest r2
  | Seq r1 r2 => nullable start rest r1 && nullable start rest r2
  end.

(** What remains of [r] once [c], the head of [rest], is consumed. *)
Fixpoint deriv (start : bool) (rest : list ascii) (c : ascii) (r : regex)
  : regex :=
  match r with
  | Void | Eps | Bol | Eol => Void
  | Chr c' => if Ascii.eqb c c' then Eps else Void
  | AnyChar => if Ascii.eqb c newline then Void else Eps
  | Class p => if p c then Eps else Void
  | Alt r1 r2 => alt (deriv start rest c r1) (deriv start rest c r2)
  | Seq r1 r2 =>
      alt (seq (deriv start rest c r1) r2)
          (if nullable start rest r1 then deriv start rest c r2 else Void)
  | Star r1 => seq (deriv start rest c r1) (Star r1)
  end.

(** Some prefix of the input matches. *)
Fixpoint matches (start : bool) (r : regex) (input : list ascii) : bool :=
  nullable start input r
  || match input with
     | [] => false
     | c :: rest => matches false (deriv start input c r) rest
     end.

Definition special (c : ascii) : bool :=
  existsb (Ascii.eqb c) (list_ascii_of_string "()|*+?[]{}\.^$").

Definition escape (c : ascii) : option regex :=
  if Ascii.eqb c "S" then Some (Class (fun x => negb (is_space x)))
  else if Ascii.eqb c "s" then Some (Class is_space)
  else if Ascii.eqb c "d" then Some (Class is_digit)
  else if special c || Ascii.eqb c "-" || Ascii.eqb c " " || Ascii.eqb c "/"
  then Some (Chr c)
  else None.

(** One optional quantifier after an atom. *)
Definition quantified (atom : regex) (l : list ascii) : regex * list ascii :=
  match l with
  | c :: rest =>
      if Ascii.eqb c "*" then (Star atom, rest)
      else if Ascii.eqb c "+" then (Seq atom (Star atom), rest)
      else if Ascii.eqb c "?" then (Alt Eps atom, rest)
      else (atom, l)
  | [] => (atom, l)
  end.

(** The parser descends through alternatives ([parse 0]), sequences
    ([parse 1]) and atoms ([parse 2]); [fuel] bounds its depth. *)
Fixpoint parse (fuel : nat) (level : nat) (l : list ascii)
  : option (regex * list ascii) :=
  match fuel with
  | O => None
  | S fuel' =>
      match level with
      | 0 =>
          match parse fuel' 1 l with
          | Some (r1, c :: rest) =>
              if Ascii.eqb c "|" then
                match parse fuel' 0 rest with
                | Some (r2, rest') => Some (Alt r1 r2, rest')
                | None => None
                end
              else Some (r1, c :: rest)
          | other => other
          end
      | 1 =>
          match l with
          | [] => Some (Eps, [])
          | c :: _ =>
              if Ascii.eqb c "|" || Ascii.eqb c ")" then Some (Eps, l)
              else
                match parse fuel' 2 l with
                | Some (atom, rest) =>
                    let (r1, rest1) := quantified atom rest in
                    match parse fuel' 1 rest1 with
                    | Some (r2, rest2) => Some (Seq r1 r2, rest2)
                    | None => None
                    end
                | None => None
                end
          end
      | _ =>
          match l with
          | [] => None
          | c :: rest =>
              if Ascii.eqb c "(" then
                match parse fuel' 0 rest with
                | Some (r, c' :: rest') =>
                    if Ascii.eqb c' ")" then Some (r, rest') else None
                | _ => None
                end
              else if Ascii.eqb c "." then Some (AnyChar, rest)
              else if Ascii.eqb c "^" then Some (Bol, rest)
              else if Ascii.eqb c "$" then Some (Eol, rest)
              else if Ascii.eqb c "\" then
                match rest with
                | e :: rest' =>
                    match escape e with
                    | Some r => Some (r, rest')
                    | None => None
                    end
                | [] => None
                end
              else if special c then None
              else Some (Chr c, rest)
          end
      end
  end.

Definition compile (pattern : string) : option regex :=
  let l := list_ascii_of_string pattern in
  match parse (3 * S (List.length l)) 0 l with
  | Some (r, []) => Some r
  | _ => None
  end.

Definition re_match (pattern line : string) : bool :=
  match compile pattern with
  | Some r => matches true r (list_ascii_of_string line)
  | None => false
  end.

End Re.

(** ** Vocabulary of the statements *)


(** The result is not a ConfigError. *)
Definition no_config_error {A : Type} (r : result A) : Prop :=
  forall msg, r <> Raise (ConfigError msg).

(** The timers that [spf_delay_ietf] lacks, in the order of the code's
    list. *)
Definition missing_timers (spf_delay_ietf : value) : list string :=
  filter (fun t => negb (py_in t spf_delay_ietf)) required_timers.

(** The interface is bound to the VRF on the host: its [master] is the
    VRF's name. *)
Definition vrf_member (get_interface_config : string -> dict) (vrf : value)
    (interface : string) : bool :=
  match lookup "master" (get_interface_config interface) with
  | Some master => py_eq master vrf
  | None => false
  end.

(** [isis.get('level', '').replace('-', '_')], when [level] is a string
    or absent. *)
Definition process_level (isis : dict) : option string :=
  match lookup "level" isis with
  | None => Some ""
  | Some (VStr s) => Some (replace_char "-" "_" s)
  | Some _ => None
  end.

(** The process level lets a protocol be redistributed at this level. *)
Definition level_allowed (proc_level redistr_level : string) : bool :=
  String.eqb proc_level "" || String.eqb proc_level "level_1_2"
  || String.eqb proc_level redistr_level.

(** ** Sample configurations *)

Module Sample.

(** A host on which [eth0] is bound to the VRF [red]. *)
Definition host (interface : string) : dict :=
  if String.eqb interface "eth0"
  then [("ifname", VStr "eth0"); ("master", VStr "red")]
  else [("ifname", VStr interface)].

(** A process that visits a set in the order given. *)
Definition in_order (l : list string) : list string := l.

Definition plain_repr (v : value) : string := "<object>".

Definition base : dict :=
  [("domain", VStr "FOO");
   ("net", VStr "49.0001.1921.6800.1002.00");
   ("interface", VDict [("eth0", VDict [])])].

Definition deleted : dict :=
  [("interface_removed", VList ["eth0"]); ("deleted", VStr "")].

Definition no_domain : dict :=
  [("net", VStr "49.0001.1921.6800.1002.00");
   ("interface", VDict [("eth0", VDict [])])].

Definition no_net : dict :=
  [("domain", VStr "FOO"); ("interface", VDict [("eth0", VDict [])])].

Definition no_interface : dict :=
  [("domain", VStr "FOO"); ("net", VStr "49.0001.1921.6800.1002.00")].

Definition both_encryptions : dict :=
  (base ++ [("area_password", VDict [("md5", VStr "secret")]);
            ("encryption", VDict [("md5", VDict []);
                                  ("plaintext_password", VDict [])])])%list.

Definition password_without_encryption : dict :=
  (base ++ [("area_password", VDict [("md5", VStr "secret")])])%list.

Definition empty_spf_delay : dict :=
  (base ++ [("spf_delay_ietf", VDict [])])%list.

Definition partial_spf_delay : dict :=
  (base ++ [("spf_delay_ietf",
             VDict [("holddown", VStr "10"); ("init_delay", VStr "50")])])%list.

Definition full_spf_delay : dict :=
  (base ++ [("spf_delay_ietf",
             VDict [("holddown", VStr "10"); ("init_delay", VStr "50");
                    ("long_delay", VStr "200"); ("short_delay", VStr "100");
                    ("time_to_learn", VStr "75")])])%list.

Definition redistribute_without_level : dict :=
  (base ++ [("redistribute", VDict [("ipv4", VDict [("static", VDict [])])])])%list.

Definition labels (block : string) (entries : dict) : dict :=
  (base ++ [("segment_routing", VDict [(block, VDict entries)])])%list.

(** Entries that a dict may hold besides the mandatory ones. *)
Definition two_encryptions : dict :=
  [("area_password", VDict [("md5", VStr "secret")]);
   ("encryption", VDict [("md5", VDict []); ("plaintext_password", VDict [])])].

Definition area_password_only : dict :=
  [("area_password", VDict [("md5", VStr "secret")])].

Definition block (name : string) (entries : dict) : dict :=
  [("segment_routing", VDict [(name, VDict entries)])].

Definition full_timers : dict :=
  [("spf_delay_ietf",
    VDict [("holddown", VStr "10"); ("init_delay", VStr "50");
           ("long_delay", VStr "200"); ("short_delay", VStr "100");
           ("time_to_learn", VStr "75")])].

(** Dicts tagged [deleted] that hold other entries, and dicts in which an
    earlier rule fails. *)
Definition deleted_both_encryptions : dict := (deleted ++ two_encryptions)%list.

Definition deleted_password : dict := (deleted ++ area_password_only)%list.

Definition no_domain_password : dict := (no_domain ++ area_password_only)%list.




Definition deleted_block_without_labels : dict :=
  (deleted ++ block "global_block" [("comment", VStr "labels")])%list.

Definition no_domain_block_without_labels : dict :=
  (no_domain ++ block "global_block" [("comment", VStr "labels")])%list.

Definition no_domain_full_timers : dict := (no_domain ++ full_timers)%list.

Definition unlines (lines : list string) : string :=
  String.concat (String newline "") lines.

(** The sections of the handler for [base]: one of the interface, one
    of the router. *)
Definition rendered_text : string :=
  unlines ["interface eth0";
           " ip router isis FOO";
           "router isis FOO";
           " net 49.0001.1921.6800.1002.00";
           ""].

Definition render (template : string) (isis : dict) : string :=
  if contains "domain" isis then rendered_text else "".

(** What [generate] makes of [base] and of [deleted]. *)
Definition rendered : dict := generate render base.

Definition removed : dict := generate render deleted.



(** A running configuration of the daemon. *)
Definition running : list string :=
  ["frr version 7.5";
   "interface eth0";
   " ip router isis OLD";
   "interface eth2";
   " description uplink";
   "router isis OLD";
   " net 49.0001.0000.0000.0001.00";
   "route-map FOO permit 10";
   "line vty"].

(** A daemon that is its running configuration and takes every commit. *)
Definition show (name : string) (d : list string) : option (list string) :=
  Some d.

Definition take (name : string) (config : list string) (d : list string)
  : option (list string) := Some config.

(** A backend: the default instance is configured; the instance of the
    VRF [red] has just been deleted, with its interface [eth0]. *)
Definition red_path : list string := ["vrf"; "name"; "red"; "protocols"; "isis"].

Definition tree (path : list string) : dict :=
  if list_eqb path ["protocols"; "isis"] then base else [].

Definition tree_exists (path : list string) : bool :=
  list_eqb path ["protocols"; "isis"].

Definition tree_removed (path : list string) : list string :=
  if list_eqb path (red_path ++ ["interface"])%list then ["eth0"] else [].

(** A backend whose tree lacks the domain. *)
Definition tree_without_domain (path : list string) : dict := no_domain.

Definition always (path : list string) : bool := true.

Definition none_removed (path : list string) : list string := [].

(** Instances of [base] in a VRF. *)
Definition in_red : dict := ("vrf", VStr "red") :: base.

Definition in_blue : dict := ("vrf", VStr "blue") :: base.

(** [base] with its entries in another order. *)
Definition base_reordered : dict :=
  [("interface", VDict [("eth0", VDict [])]);
   ("net", VStr "49.0001.1921.6800.1002.00");
   ("domain", VStr "FOO")].

(** Redistribution of static routes at level 2, in a level-1 process and
    in a level-1-2 process. *)
Definition static_level_2 : dict :=
  [("redistribute",
    VDict [("ipv4", VDict [("static", VDict [("level_2", VDict [])])])])].

Definition level_1_static_level_2 : dict :=
  (base ++ ("level", VStr "level-1") :: static_level_2)%list.

Definition level_1_2_static_level_2 : dict :=
  (base ++ ("level", VStr "level-1-2") :: static_level_2)%list.

Definition ordered_labels : dict :=
  labels "global_block" [("low_label_value", VStr "100");
                         ("high_label_value", VStr "200")].

Definition vrf_is_list : dict := ("vrf", VList ["red"]) :: rendered.

(** An area password with the md5 encryption only. *)
Definition password_md5 : dict :=
  (base ++ [("area_password", VDict [("md5", VStr "secret")]);
            ("encryption", VDict [("md5", VDict [])])])%list.

(** The running configuration once [rendered] is applied to [running]. *)
Definition applied : list string :=
  ["frr version 7.5"; "interface eth2"; " description uplink";
   "interface eth0"; " ip router isis FOO"; "router isis FOO";
   " net 49.0001.1921.6800.1002.00"; ""; "route-map FOO permit 10";
   "line vty"].

(** A host without any interface bound to a VRF. *)
Definition bare_host (interface : string) : dict := [("ifname", VStr interface)].

End Sample.

(** * Properties of [verify] *)

Section VerifyFacts.

Variable get_interface_config : string -> dict.
Variable set_iter : list string -> list string.
Variable repr : value -> string.

Local Abbreviation verify := (verify get_interface_config set_iter repr).
Local Abbreviation vrf_membership := (vrf_membership get_interface_config repr).
Local Abbreviation spf_delay_timers := (spf_delay_timers set_iter).

Lemma contains_lookup (k : string) (d : dict) :
  contains k d = true <-> exists v, lookup k d = Some v.
Proof.
  unfold contains. destruct (lookup k d) as [v|].
  - split; [eauto | reflexivity].
  - split; [discriminate | intros [v H]; discriminate].
Qed.

Lemma contains_getitem (k : string) (d : dict) :
  contains k d = true -> exists v, getitem d k = Ret v /\ lookup k d = Some v.
Proof.
  intros H. apply contains_lookup in H as [v H].
  exists v. unfold getitem. rewrite H. auto.
Qed.

Lemma not_contains_getitem (k : string) (d : dict) :
  contains k d = false -> getitem d k = Raise (KeyError k).
Proof.
  unfold contains, getitem. destruct (lookup k d); [discriminate | reflexivity].
Qed.

(** A chain of rules returns only when each of them does. *)
Lemma seq_ret (m k : result unit) :
  (m ;;; k) = Ret tt -> m = Ret tt /\ k = Ret tt.
Proof. destruct m as [[]|e]; simpl; [auto | discriminate]. Qed.

Lemma removal_false (isis : dict) :
  isis <> [] -> contains "deleted" isis = false -> removal isis = false.
Proof.
  intros Hne Hdel. unfold removal. rewrite Hdel.
  destruct isis; [contradiction | reflexivity].
Qed.

Lemma contains_nonempty (k : string) (isis : dict) :
  contains k isis = true -> isis <> [].
Proof. intros H ->. discriminate. Qed.

(** Past the removal test, [verify] is the chain of its rules. *)
Lemma verify_rules (isis : dict) :
  removal isis = false ->
  verify isis =
    (mandatory_fields isis ;;;
     vrf_membership isis ;;;
     area_password_encryption isis ;;;
     spf_delay_timers isis ;;;
     redistribute_levels isis ;;;
     global_block isis ;;;
     local_block isis).
Proof. intros H. unfold verify. rewrite H. reflexivity. Qed.

Lemma mandatory_fields_cases (isis : dict) :
  (mandatory_fields isis = Ret tt /\ contains "interface" isis = true)
  \/ exists msg, mandatory_fields isis = Raise (ConfigError msg).
Proof.
  unfold mandatory_fields.
  destruct (contains "domain" isis); simpl; [|right; eauto].
  destruct (contains "net" isis); simpl; [|right; eauto].
  destruct (contains "interface" isis); simpl; [left; auto | right; eauto].
Qed.

Lemma mandatory_fields_ok (isis : dict) :
  mandatory_fields isis = Ret tt ->
  contains "domain" isis = true /\ contains "net" isis = true
  /\ contains "interface" isis = true.
Proof.
  unfold mandatory_fields.
  destruct (contains "domain" isis); simpl; [|discriminate].
  destruct (contains "net" isis); simpl; [|discriminate].
  destruct (contains "interface" isis); simpl; [auto | discriminate].
Qed.

(** A loop whose body passes or raises a configuration error does the
    same as a whole. *)
Lemma for_each_config_error {A : Type} (xs : list A) (body : A -> result unit) :
  (forall x, body x = Ret tt \/ exists msg, body x = Raise (ConfigError msg)) ->
  for_each xs body = Ret tt
  \/ exists msg, for_each xs body = Raise (ConfigError msg).
Proof.
  intros Hbody. induction xs as [|x rest IH]; simpl; [left; reflexivity|].
  destruct (Hbody x) as [-> | [msg ->]]; simpl; [exact IH | right; eauto].
Qed.

(** The VRF rule passes or raises a configuration error. *)
Lemma vrf_membership_cases (isis : dict) :
  contains "interface" isis = true ->
  vrf_membership isis = Ret tt
  \/ exists msg, vrf_membership isis = Raise (ConfigError msg).
Proof.
  intros Hi. unfold vrf_membership.
  destruct (contains_getitem _ _ Hi) as [v [-> _]]. simpl.
  apply for_each_config_error. intros interface.
  destruct (contains "vrf" isis) eqn:Hv; [|left; reflexivity].
  destruct (contains_getitem _ _ Hv) as [vrf [-> _]]. simpl.
  match goal with
  | |- context [if ?c then _ else _] => destruct c
  end; [right; eauto | left; reflexivity].
Qed.

(** ** C7: removal skips every rule *)

(** C7.  For a ConfigDict that is empty or holds the key [deleted],
    [verify] returns [None] without raising, whatever else the dict
    holds or lacks. *)
Theorem verify_removal_returns (isis : dict) :
  isis = [] \/ contains "deleted" isis = true ->
  verify isis = Ret tt.
Proof.
  intros H. unfold verify, removal.
  destruct H as [-> | ->]; [reflexivity|].
  rewrite orb_true_r. reflexivity.
Qed.

(** ** C5: the mandatory fields *)

(** C5.  For a ConfigDict that is neither empty nor tagged [deleted],
    [verify] raises a ConfigError that names the first missing field in
    the order domain, net, interface. *)
Theorem verify_mandatory_fields (isis : dict) :
  isis <> [] ->
  contains "deleted" isis = false ->
  (contains "domain" isis = false ->
   verify isis = Raise (ConfigError "Routing domain name/tag must be set!"))
  /\ (contains "domain" isis = true ->
      contains "net" isis = false ->
      verify isis = Raise (ConfigError "Network entity is mandatory!"))
  /\ (contains "domain" isis = true ->
      contains "net" isis = true ->
      contains "interface" isis = false ->
      verify isis =
        Raise (ConfigError "Interface used for routing updates is mandatory!")).
Proof.
  intros Hne Hdel. rewrite (verify_rules _ (removal_false _ Hne Hdel)).
  unfold mandatory_fields.
  repeat split.
  - intros ->. reflexivity.
  - intros -> ->. reflexivity.
  - intros -> -> ->. reflexivity.
Qed.

(** ** C6: the two encryptions of the area password *)

(** C6, as the code has it.  A ConfigDict that is not tagged [deleted],
    holds [area_password] and whose [encryption] entry holds both [md5]
    and [plaintext_password] makes [verify] raise a ConfigError; when the
    mandatory fields and the VRF rule pass, it is the error of this
    rule. *)
Theorem verify_area_password_exclusive (isis : dict) (encryption : value) :
  contains "deleted" isis = false ->
  contains "area_password" isis = true ->
  lookup "encryption" isis = Some encryption ->
  mem "md5" (py_iter encryption) = true ->
  mem "plaintext_password" (py_iter encryption) = true ->
  (exists msg, verify isis = Raise (ConfigError msg))
  /\ (mandatory_fields isis = Ret tt ->
      vrf_membership isis = Ret tt ->
      verify isis = Raise (ConfigError
        "Can not use both md5 and plaintext-password for ISIS area-password!")).
Proof.
  intros Hdel Hpw Henc Hmd5 Hplain.
  rewrite (verify_rules _ (removal_false _ (contains_nonempty _ _ Hpw) Hdel)).
  assert (Hrule : area_password_encryption isis = Raise (ConfigError
            "Can not use both md5 and plaintext-password for ISIS area-password!")).
  { unfold area_password_encryption, getitem.
    rewrite Hpw, Henc. simpl. rewrite Hmd5, Hplain. reflexivity. }
  split.
  - destruct (mandatory_fields_cases isis) as [[-> Hi] | [msg ->]];
      [|simpl; eauto].
    destruct (vrf_membership_cases _ Hi) as [-> | [msg ->]]; [|simpl; eauto].
    rewrite Hrule. simpl. eauto.
  - intros -> ->. rewrite Hrule. reflexivity.
Qed.

(** ** C9: an area password without [encryption] *)

(** C9, as the code has it.  A ConfigDict that is not tagged [deleted]
    and holds [area_password] but not [encryption] never makes [verify]
    return: the lookup [isis['encryption']] finds nothing, and when the
    mandatory fields are present and the VRF rule passes, [verify] ends in
    the missing-key error of that lookup, not in a ConfigError. *)
Theorem verify_area_password_missing_encryption (isis : dict) :
  contains "deleted" isis = false ->
  contains "area_password" isis = true ->
  contains "encryption" isis = false ->
  lookup "encryption" isis = None
  /\ verify isis <> Ret tt
  /\ (mandatory_fields isis = Ret tt ->
      vrf_membership isis = Ret tt ->
      verify isis = Raise (KeyError "encryption")).
Proof.
  intros Hdel Hpw Henc.
  assert (Hrule : area_password_encryption isis = Raise (KeyError "encryption")).
  { unfold area_password_encryption.
    rewrite Hpw, (not_contains_getitem _ _ Henc). reflexivity. }
  rewrite (verify_rules _ (removal_false _ (contains_nonempty _ _ Hpw) Hdel)).
  split; [|split].
  - unfold contains in Henc. destruct (lookup "encryption" isis);
      [discriminate | reflexivity].
  - intros H.
    apply seq_ret in H as [_ H]. apply seq_ret in H as [_ H].
    apply seq_ret in H as [H _]. congruence.
  - intros -> ->. rewrite Hrule. reflexivity.
Qed.

(** ** C4: the timers of [spf_delay_ietf] *)

Lemma spf_delay_timers_rule (isis : dict) (spf : value) :
  lookup "spf_delay_ietf" isis = Some spf ->
  spf_delay_timers isis =
    if forallb (fun t => py_in t spf) required_timers then Ret tt
    else Raise (ConfigError ("All types of delay must be specified: "
           ++ replace_char "_" "-"
                (String.concat ", " (set_iter (missing_timers spf))))).
Proof.
  intros H. unfold spf_delay_timers, contains, getitem, missing_timers.
  rewrite H. simpl bind. unfold required_timers. simpl filter. simpl forallb.
  destruct (py_in "holddown" spf), (py_in "init_delay" spf),
    (py_in "long_delay" spf), (py_in "short_delay" spf),
    (py_in "time_to_learn" spf); reflexivity.
Qed.

(** C4, as the code has it.  For a ConfigDict that reaches the rule of
    [spf_delay_ietf], [verify] raises the ConfigError of this rule
    exactly when some member of the group holddown, init_delay,
    long_delay, short_delay, time_to_learn is absent under
    [spf_delay_ietf], which includes the case where none is present;
    when all five are present the rule passes. *)
Theorem verify_spf_delay_timers (isis : dict) (spf : value) :
  contains "deleted" isis = false ->
  mandatory_fields isis = Ret tt ->
  vrf_membership isis = Ret tt ->
  area_password_encryption isis = Ret tt ->
  lookup "spf_delay_ietf" isis = Some spf ->
  ((exists t, In t required_timers /\ py_in t spf = false) ->
   verify isis =
     Raise (ConfigError ("All types of delay must be specified: "
       ++ replace_char "_" "-"
            (String.concat ", " (set_iter (missing_timers spf))))))
  /\ ((forall t, In t required_timers -> py_in t spf = true) ->
      spf_delay_timers isis = Ret tt).
Proof.
  intros Hdel Hm Hv Ha Hspf.
  assert (Hne : isis <> []) by (intros ->; discriminate).
  rewrite (verify_rules _ (removal_false _ Hne Hdel)), Hm, Hv, Ha.
  rewrite (spf_delay_timers_rule _ _ Hspf).
  split.
  - intros [t [Hin Ht]].
    assert (E : forallb (fun t => py_in t spf) required_timers = false).
    { destruct (forallb (fun t => py_in t spf) required_timers) eqn:E;
        [|reflexivity].
      rewrite forallb_forall in E. rewrite (E t Hin) in Ht. discriminate. }
    rewrite E. reflexivity.
  - intros Hall. rewrite (proj2 (forallb_forall _ _) Hall). reflexivity.
Qed.

(** ** C3: the redistribution rule *)

Lemma no_config_error_bind {A B : Type} (m : result A) (k : A -> result B) :
  no_config_error m -> (forall a, no_config_error (k a)) ->
  no_config_error (bind m k).
Proof.
  intros Hm Hk msg. destruct m as [a|e]; simpl; [apply Hk|].
  intros [= ->]. exact (Hm msg eq_refl).
Qed.

Lemma no_config_error_for_each {A : Type} (xs : list A)
    (body : A -> result unit) :
  (forall x, no_config_error (body x)) -> no_config_error (for_each xs body).
Proof.
  intros Hbody. induction xs as [|x rest IH]; simpl.
  - intros msg. discriminate.
  - apply no_config_error_bind; [apply Hbody | intros _; exact IH].
Qed.

Lemma no_config_error_getitem (d : dict) (k : string) :
  no_config_error (getitem d k).
Proof. intros msg. unfold getitem. destruct (lookup k d); discriminate. Qed.

Lemma no_config_error_py_getitem (v : value) (k : string) :
  no_config_error (py_getitem v k).
Proof.
  destruct v; simpl; try (intros msg; discriminate).
  apply no_config_error_getitem.
Qed.

Lemma no_config_error_py_items (v : value) : no_config_error (py_items v).
Proof. intros msg. destruct v; discriminate. Qed.

(** Whatever the redistribution rule raises, it is not a ConfigError:
    both of its messages mention the unbound name [process]. *)
Lemma redistribute_levels_no_config_error (isis : dict) :
  no_config_error (redistribute_levels isis).
Proof.
  unfold redistribute_levels.
  destruct (contains "redistribute" isis); [|intros msg; discriminate].
  apply no_config_error_bind.
  { intros msg. destruct (lookup "level" isis) as [[level| |]|]; discriminate. }
  intros level. apply no_config_error_for_each. intros afi.
  apply no_config_error_bind; [apply no_config_error_getitem|].
  intros redistribute.
  destruct (negb (py_in afi redistribute)); [intros msg; discriminate|].
  apply no_config_error_bind; [apply no_config_error_py_getitem|].
  intros afi_config.
  apply no_config_error_bind; [apply no_config_error_py_items|].
  intros protocols. apply no_config_error_for_each.
  intros [proto proto_config].
  destruct (negb (py_in "level_1" proto_config)
            && negb (py_in "level_2" proto_config));
    [intros msg; discriminate|].
  apply no_config_error_bind; [apply no_config_error_py_items|].
  intros levels. apply no_config_error_for_each.
  intros [redistr_level redistr_config].
  match goal with
  | |- context [if ?c then _ else _] => destruct c
  end; intros msg; discriminate.
Qed.

(** ** C2 and C10: the label blocks of segment routing *)

Lemma label_block_rule (block msg_both msg_order : string) (isis : dict) :
  truthy_opt (dict_search ("segment_routing." ++ block) isis) = true ->
  label_block block msg_both msg_order isis =
    let low := dict_search ("segment_routing." ++ block ++ ".low_label_value") isis in
    let high := dict_search ("segment_routing." ++ block ++ ".high_label_value") isis in
    if xorb (truthy_opt low) (truthy_opt high) then Raise (ConfigError msg_both)
    else low_value <- py_int low ;;
         high_value <- py_int high ;;
         if (low_value >? high_value)%Z then Raise (ConfigError msg_order)
         else Ret tt.
Proof.
  intros H. unfold label_block. rewrite H. cbv zeta.
  destruct
    (truthy_opt
       (dict_search ("segment_routing." ++ block ++ ".low_label_value") isis)),
    (truthy_opt
       (dict_search ("segment_routing." ++ block ++ ".high_label_value") isis));
    reflexivity.
Qed.





Lemma label_block_no_label (block msg_both msg_order : string) (isis : dict) :
  truthy_opt (dict_search ("segment_routing." ++ block) isis) = true ->
  dict_search ("segment_routing." ++ block ++ ".low_label_value") isis = None ->
  dict_search ("segment_routing." ++ block ++ ".high_label_value") isis = None ->
  label_block block msg_both msg_order isis = Raise TypeError.
Proof.
  intros H Hl Hh. rewrite (label_block_rule _ _ _ _ H). cbv zeta.
  rewrite Hl, Hh. reflexivity.
Qed.



(** A present block entry means that the dict is not empty. *)
Lemma dict_search_nonempty (path : string) (isis : dict) :
  truthy_opt (dict_search path isis) = true -> isis <> [].
Proof.
  intros H ->. unfold dict_search in H.
  destruct (String.eqb path ""); [discriminate|].
  destruct (split_on "." path) as [|p rest]; simpl in H; discriminate.
Qed.

(** C10, as the code has it.  A ConfigDict that is not tagged [deleted]
    and whose [global_block] (or [local_block]) entry is present and not
    empty but holds neither [low_label_value] nor [high_label_value] never
    makes [verify] return.  When the rules before the block pass, the
    both-or-none test passes as well and [int] is applied to [None]:
    [verify] ends in a TypeError, not in a ConfigError. *)
Theorem verify_label_block_without_labels (isis : dict) :
  contains "deleted" isis = false ->
  (truthy_opt (dict_search "segment_routing.global_block" isis) = true ->
   dict_search "segment_routing.global_block.low_label_value" isis = None ->
   dict_search "segment_routing.global_block.high_label_value" isis = None ->
   verify isis <> Ret tt
   /\ (mandatory_fields isis = Ret tt ->
       vrf_membership isis = Ret tt ->
       area_password_encryption isis = Ret tt ->
       spf_delay_timers isis = Ret tt ->
       redistribute_levels isis = Ret tt ->
       verify isis = Raise TypeError))
  /\ (truthy_opt (dict_search "segment_routing.local_block" isis) = true ->
      dict_search "segment_routing.local_block.low_label_value" isis = None ->
      dict_search "segment_routing.local_block.high_label_value" isis = None ->
      verify isis <> Ret tt
      /\ (mandatory_fields isis = Ret tt ->
          vrf_membership isis = Ret tt ->
          area_password_encryption isis = Ret tt ->
          spf_delay_timers isis = Ret tt ->
          redistribute_levels isis = Ret tt ->
          global_block isis = Ret tt ->
          verify isis = Raise TypeError)).
Proof.
  intros Hdel. split.
  - intros Hentry Hl Hh.
    assert (Hrule : global_block isis = Raise TypeError)
      by (exact (label_block_no_label "global_block" _ _ isis Hentry Hl Hh)).
    rewrite (verify_rules _ (removal_false _ (dict_search_nonempty _ _ Hentry) Hdel)).
    split.
    + intros H.
      do 5 (apply seq_ret in H as [_ H]).
      apply seq_ret in H as [H _]. congruence.
    + intros -> -> -> -> ->. rewrite Hrule. reflexivity.
  - intros Hentry Hl Hh.
    assert (Hrule : local_block isis = Raise TypeError)
      by (exact (label_block_no_label "local_block" _ _ isis Hentry Hl Hh)).
    rewrite (verify_rules _ (removal_false _ (dict_search_nonempty _ _ Hentry) Hdel)).
    split.
    + intros H.
      do 6 (apply seq_ret in H as [_ H]). congruence.
    + intros -> -> -> -> -> ->. rewrite Hrule. reflexivity.
Qed.

End VerifyFacts.

(** * Properties of [apply] *)

Section FrrFacts.

Variable re_match : string -> string -> bool.

Local Abbreviation modify_section_from := (modify_section_from re_match).
Local Abbreviation modify_section := (modify_section re_match).
Local Abbreviation insert_before := (insert_before re_match).
Local Abbreviation add_before := (add_before re_match).
Local Abbreviation remove_sections := (remove_sections re_match).
Local Abbreviation apply_snapshot := (apply_snapshot re_match).
Local Abbreviation owned_content := (owned_content re_match).
Local Abbreviation clean := (clean re_match).

Lemma clean_cons (anchor line : string) (config : list string) :
  clean anchor (line :: config) ->
  top_level line && re_match anchor line = false /\ clean anchor config.
Proof.
  intros H. split; [apply H; left; reflexivity|].
  intros l Hl. apply H. right. exact Hl.
Qed.

Lemma clean_app (anchor : string) (a b : list string) :
  clean anchor (a ++ b) -> clean anchor a /\ clean anchor b.
Proof.
  intros H. split; intros l Hl; apply H; apply in_or_app; auto.
Qed.

(** *** Removing the sections of one anchor *)

Lemma removed_lines (anchor : string) (config : list string) :
  forall inside line,
    In line (modify_section_from inside anchor [] config) ->
    In line config /\ top_level line && re_match anchor line = false.
Proof.
  induction config as [|l rest IH]; simpl; intros inside line H; [contradiction|].
  destruct (top_level l) eqn:Htop.
  - destruct (re_match anchor l) eqn:Hm; simpl in H.
    + destruct (IH _ _ H). auto.
    + destruct H as [<- | H].
      * rewrite Htop, Hm. auto.
      * destruct (IH _ _ H). auto.
  - destruct inside.
    + destruct (IH _ _ H). auto.
    + destruct H as [<- | H].
      * rewrite Htop. auto.
      * destruct (IH _ _ H). auto.
Qed.

Lemma removal_unchanged (anchor : string) (config : list string) :
  clean anchor config -> modify_section_from false anchor [] config = config.
Proof.
  induction config as [|l rest IH]; simpl; intros H; [reflexivity|].
  apply clean_cons in H as [Hl Hrest].
  destruct (top_level l); simpl in Hl.
  - rewrite Hl, (IH Hrest). reflexivity.
  - rewrite (IH Hrest). reflexivity.
Qed.

Lemma removal_after_clean (anchor : string) (pre rest : list string) :
  clean anchor pre ->
  modify_section_from false anchor [] (pre ++ rest)
  = (pre ++ modify_section_from false anchor [] rest)%list.
Proof.
  induction pre as [|l pre IH]; simpl; intros H; [reflexivity|].
  apply clean_cons in H as [Hl Hpre].
  destruct (top_level l); simpl in Hl.
  - rewrite Hl, (IH Hpre). reflexivity.
  - rewrite (IH Hpre). reflexivity.
Qed.

(** A top-level line ends whatever section was being removed. *)
Lemma removal_before_top_level (anchor line : string) (a b : list string) :
  top_level line = true ->
  forall inside,
    modify_section_from inside anchor [] (a ++ line :: b)
    = (modify_section_from inside anchor [] a
       ++ modify_section_from false anchor [] (line :: b))%list.
Proof.
  intros Htop. induction a as [|l a IH]; intros inside.
  - simpl. rewrite Htop. reflexivity.
  - simpl app. simpl modify_section_from at 1 2.
    destruct (top_level l).
    + destruct (re_match anchor l); simpl; rewrite IH; reflexivity.
    + destruct inside; simpl; rewrite IH; reflexivity.
Qed.

(** *** Removing the sections of several anchors *)

Lemma remove_sections_cons (anchor : string) (anchors : list string)
    (config : list string) :
  remove_sections (anchor :: anchors) config
  = remove_sections anchors (modify_section_from false anchor [] config).
Proof. reflexivity. Qed.

Lemma remove_sections_lines (anchors : list string) :
  forall config line,
    In line (remove_sections anchors config) -> In line config.
Proof.
  induction anchors as [|a anchors IH]; intros config line H; [exact H|].
  rewrite remove_sections_cons in H.
  apply IH in H. apply removed_lines in H. tauto.
Qed.

Lemma remove_sections_clean (anchors : list string) :
  forall config anchor,
    In anchor anchors -> clean anchor (remove_sections anchors config).
Proof.
  induction anchors as [|a anchors IH]; intros config anchor Hin;
    [contradiction|].
  rewrite remove_sections_cons. destruct Hin as [<- | Hin].
  - intros line Hline. apply remove_sections_lines in Hline.
    apply removed_lines in Hline. tauto.
  - apply IH. exact Hin.
Qed.

Lemma remove_sections_unchanged (anchors : list string) (config : list string) :
  (forall anchor, In anchor anchors -> clean anchor config) ->
  remove_sections anchors config = config.
Proof.
  induction anchors as [|a anchors IH]; intros H; [reflexivity|].
  rewrite remove_sections_cons, removal_unchanged.
  - apply IH. intros anchor Hin. apply H. right. exact Hin.
  - apply H. left. reflexivity.
Qed.

(** Content inserted in a clean snapshot, before a top-level line, is
    removed as if it stood alone. *)
Lemma remove_sections_inserted (anchors : list string) (line : string)
    (pre post : list string) :
  top_level line = true ->
  (forall anchor, In anchor anchors -> clean anchor (pre ++ line :: post)) ->
  forall content,
    remove_sections anchors (pre ++ content ++ line :: post)
    = (pre ++ remove_sections anchors content ++ line :: post)%list.
Proof.
  intros Htop. induction anchors as [|a anchors IH]; intros Hclean content;
    [reflexivity|].
  rewrite !remove_sections_cons.
  destruct (clean_app _ _ _ (Hclean a (or_introl eq_refl))) as [Hpre Hpost].
  rewrite (removal_after_clean _ _ _ Hpre).
  rewrite (removal_before_top_level _ _ _ _ Htop).
  rewrite (removal_unchanged _ _ Hpost).
  apply IH. intros anchor Hin. apply Hclean. right. exact Hin.
Qed.

(** *** Inserting before the anchor *)

Lemma insert_before_found (pattern : string) (addition : list string) :
  forall config config',
    insert_before pattern addition config = Some config' ->
    exists pre line post,
      config = (pre ++ line :: post)%list
      /\ config' = (pre ++ addition ++ line :: post)%list
      /\ top_level line = true
      /\ (forall other,
            insert_before pattern other config
            = Some (pre ++ other ++ line :: post)%list).
Proof.
  induction config as [|l rest IH]; simpl; intros config' H; [discriminate|].
  destruct (top_level l && re_match pattern l) eqn:E.
  - injection H as <-. exists [], l, rest.
    apply andb_prop in E as [Htop _]. auto.
  - destruct (insert_before pattern addition rest) as [c|] eqn:Hrest;
      [|discriminate].
    injection H as <-.
    destruct (IH _ eq_refl) as (pre & line & post & -> & -> & Htop & Hother).
    exists (l :: pre), line, post. repeat split; auto.
    intros other. rewrite Hother. reflexivity.
Qed.

Lemma insert_before_absent (pattern : string) (addition other : list string) :
  forall config,
    insert_before pattern addition config = None ->
    insert_before pattern other config = None.
Proof.
  induction config as [|l rest IH]; simpl; intros H; [reflexivity|].
  destruct (top_level l && re_match pattern l); [discriminate|].
  destruct (insert_before pattern addition rest); [discriminate|].
  rewrite (IH eq_refl). reflexivity.
Qed.

(** *** The snapshot that [apply] commits *)

Lemma remove_interfaces_anchors (isis : dict) (vrf : string)
    (frr_cfg : list string) :
  remove_interfaces re_match isis vrf
    (modify_section (router_anchor vrf) "" frr_cfg)
  = remove_sections (owned_anchors isis vrf) frr_cfg.
Proof.
  unfold remove_interfaces, remove_sections, owned_anchors. simpl.
  rewrite app_nil_r, fold_left_app.
  assert (Hmap : forall (l : list string) (cfg : list string),
    fold_left (fun cfg interface =>
                 modify_section (interface_anchor interface vrf) "" cfg) l cfg
    = fold_left (fun cfg anchor => modify_section anchor "" cfg)
        (map (fun interface => interface_anchor interface vrf) l) cfg).
  { induction l as [|i l IH]; intros cfg; simpl; [reflexivity | apply IH]. }
  destruct (lookup "interface" isis), (lookup "interface_removed" isis);
    simpl; rewrite ?Hmap; reflexivity.
Qed.

Lemma apply_snapshot_eq (isis : dict) (vrf : string) (content : value)
    (frr_cfg : list string) :
  vrf_suffix isis = Ret vrf ->
  lookup "new_frr_config" isis = Some content ->
  apply_snapshot isis frr_cfg
  = Ret (add_before before_anchor content
           (remove_sections (owned_anchors isis vrf) frr_cfg)).
Proof.
  intros Hvrf Hnew. unfold apply_snapshot, getitem.
  rewrite Hvrf, Hnew. simpl. rewrite remove_interfaces_anchors. reflexivity.
Qed.

(** One more run of the removal and the insertion changes nothing when
    the inserted content is owned. *)
Lemma add_before_remove_sections (anchors : list string) (content : value)
    (frr_cfg : list string) :
  remove_sections anchors (addition_lines content) = [] ->
  let once := add_before before_anchor content (remove_sections anchors frr_cfg) in
  add_before before_anchor content (remove_sections anchors once) = once.
Proof.
  intros Howned once. subst once. unfold add_before.
  assert (Hclean : forall anchor, In anchor anchors ->
            clean anchor (remove_sections anchors frr_cfg))
    by (intros anchor; apply remove_sections_clean).
  destruct (addition_lines content) as [|l lines] eqn:Hlines.
  - rewrite (remove_sections_unchanged _ _ Hclean). reflexivity.
  - destruct (insert_before before_anchor (l :: lines)
                (remove_sections anchors frr_cfg)) as [config'|] eqn:Hins.
    + destruct (insert_before_found _ _ _ _ Hins)
        as (pre & line & post & Hcfg & -> & Htop & Hother).
      rewrite Hcfg in Hclean.
      rewrite (remove_sections_inserted _ _ _ _ Htop Hclean), Howned.
      simpl app. rewrite <- Hcfg, Hins. reflexivity.
    + rewrite (remove_sections_unchanged _ _ Hclean), Hins. reflexivity.
Qed.

(** The snapshot of one run is a fixed point of the transformation. *)
Lemma apply_snapshot_again (isis : dict) (vrf : string) (content : value)
    (frr_cfg once : list string) :
  vrf_suffix isis = Ret vrf ->
  lookup "new_frr_config" isis = Some content ->
  owned_content isis vrf content ->
  apply_snapshot isis frr_cfg = Ret once ->
  apply_snapshot isis once = Ret once.
Proof.
  intros Hvrf Hnew Howned Honce.
  rewrite (apply_snapshot_eq _ _ _ _ Hvrf Hnew) in Honce.
  assert (E : once = add_before before_anchor content
                       (remove_sections (owned_anchors isis vrf) frr_cfg))
    by congruence.
  rewrite E, (apply_snapshot_eq _ _ _ _ Hvrf Hnew). f_equal.
  apply add_before_remove_sections. exact Howned.
Qed.


End FrrFacts.

Section ApplyFacts.

Variable re_match : string -> string -> bool.
Variable daemon : Type.
Variable show_running : string -> daemon -> option (list string).
Variable reload : string -> list string -> daemon -> option daemon.

Local Abbreviation commit_configuration :=
  (commit_configuration daemon reload frr_daemon).
Local Abbreviation for_range := (for_range daemon).
Local Abbreviation apply := (apply re_match daemon show_running reload).

(** Comparing with the empty string. *)
Lemma py_eq_empty_string (v : value) :
  py_eq v (VStr "") = true <-> v = VStr "".
Proof.
  destruct v as [s| |]; simpl; split; try discriminate.
  - intros H. apply String.eqb_eq in H. congruence.
  - intros [= ->]. reflexivity.
Qed.

Lemma commit_configuration_count (config : list string) (w : world daemon) :
  commits (snd (commit_configuration config w)) = S (commits w).
Proof.
  unfold commit_configuration.
  destruct (reload frr_daemon config (frr w)); reflexivity.
Qed.

(** A loop of [n] commits issues at most [n] of them, and all [n] when
    none is refused. *)
Lemma for_range_commits (config : list string) (n : nat) :
  forall w : world daemon,
    let r := for_range n (commit_configuration config) w in
    commits w <= commits (snd r) <= commits w + n
    /\ (fst r = Ret tt -> commits (snd r) = commits w + n).
Proof.
  induction n as [|n IH]; intros w; simpl.
  - split; [lia | intros _; lia].
  - unfold io_bind.
    pose proof (commit_configuration_count config w) as Hc.
    destruct (commit_configuration config w) as [[[]|e] w'] eqn:E;
      simpl in Hc.
    + specialize (IH w'). simpl in IH. destruct IH as [Hle Heq].
      split; [lia | intros Hr; specialize (Heq Hr); lia].
    + simpl. split; [lia | discriminate].
Qed.

(** C8.  Once [apply] has loaded the configuration and built the
    snapshot, it calls [commit_configuration] exactly once when
    [new_frr_config] is not the empty string.  When it is the empty
    string, the commit is issued again after the first one, up to five
    more times: six calls in all when the daemon refuses none, and at
    least two when it takes the first. *)
Theorem apply_commit_count (isis : dict) (w : world daemon)
    (loaded snapshot : list string) (content : value) :
  show_running frr_daemon (frr w) = Some loaded ->
  apply_snapshot re_match isis loaded = Ret snapshot ->
  lookup "new_frr_config" isis = Some content ->
  let calls := commits (snd (apply isis w)) - commits w in
  (content <> VStr "" -> calls = 1)
  /\ (content = VStr "" ->
      1 <= calls <= 6
      /\ (fst (apply isis w) = Ret tt -> calls = 6)
      /\ (reload frr_daemon snapshot (frr w) <> None -> 2 <= calls))
  /\ (1 < calls -> content = VStr "").
Proof.
  intros Hload Hsnap Hnew calls. subst calls.
  assert (Happly : apply isis w =
    match commit_configuration snapshot w with
    | (Ret _, w') =>
        if py_eq content (VStr "")
        then for_range 5 (commit_configuration snapshot) w'
        else (Ret tt, w')
    | (Raise e, w') => (Raise e, w')
    end).
  { unfold apply, io_bind, load_configuration, lift, getitem.
    rewrite Hload, Hsnap, Hnew.
    destruct (commit_configuration snapshot w) as [[[]|e] w'];
      [destruct (py_eq content (VStr "")) |]; reflexivity. }
  rewrite Happly. clear Happly.
  pose proof (commit_configuration_count snapshot w) as Hc.
  destruct (commit_configuration snapshot w) as [[[]|e] w'] eqn:E;
    simpl in Hc.
  - destruct (py_eq content (VStr "")) eqn:Heq.
    + apply py_eq_empty_string in Heq.
      destruct (for_range_commits snapshot 5 w') as [Hle Hall].
      assert (Hsecond : S (commits w') <=
                commits (snd (for_range 5 (commit_configuration snapshot) w'))).
      { simpl. unfold io_bind at 1.
        pose proof (commit_configuration_count snapshot w') as Hc'.
        destruct (commit_configuration snapshot w') as [[[]|e'] w''] eqn:E';
          simpl in Hc'.
        - destruct (for_range_commits snapshot 4 w'') as [Hle4 _].
          simpl in Hle4. lia.
        - simpl. lia. }
      split; [intros Hne; contradiction|]. split.
      * intros _. split; [lia|]. split.
        -- intros Hret. specialize (Hall Hret). lia.
        -- intros _. lia.
      * intros _. exact Heq.
    + assert (Hne : content <> VStr "").
      { intros H. apply py_eq_empty_string in H. congruence. }
      simpl. split; [intros _; lia|]. split.
      * intros H. contradiction.
      * intros H. lia.
  - simpl. split; [intros _; lia|]. split.
    + intros _. split; [lia|]. split; [discriminate|].
      intros Hacc. exfalso. apply Hacc.
      unfold commit_configuration in E.
      destruct (reload frr_daemon snapshot (frr w));
        [discriminate | reflexivity].
    + intros H. lia.
Qed.

(** *** Two runs of [apply] against a daemon that keeps what it takes *)

Lemma for_range_shows (config : list string) (n : nat) :
  (forall cfg d d', reload frr_daemon cfg d = Some d' ->
                    show_running frr_daemon d' = Some cfg) ->
  forall w w' : world daemon,
    show_running frr_daemon (frr w) = Some config ->
    for_range n (commit_configuration config) w = (Ret tt, w') ->
    show_running frr_daemon (frr w') = Some config.
Proof.
  intros Hkeeps. induction n as [|n IH]; intros w w' Hshow; simpl.
  - intros [= <-]. exact Hshow.
  - unfold io_bind, commit_configuration at 1.
    destruct (reload frr_daemon config (frr w)) as [d|] eqn:E; [|discriminate].
    apply IH. simpl. exact (Hkeeps _ _ _ E).
Qed.

(** After a run of [apply] that succeeds, the daemon shows the snapshot
    that the run built from what it loaded. *)
Lemma apply_shows_snapshot (isis : dict) (w w' : world daemon) :
  (forall cfg d d', reload frr_daemon cfg d = Some d' ->
                    show_running frr_daemon d' = Some cfg) ->
  apply isis w = (Ret tt, w') ->
  exists loaded snapshot,
    show_running frr_daemon (frr w) = Some loaded
    /\ apply_snapshot re_match isis loaded = Ret snapshot
    /\ show_running frr_daemon (frr w') = Some snapshot.
Proof.
  intros Hkeeps. unfold apply, io_bind, load_configuration, lift.
  destruct (show_running frr_daemon (frr w)) as [loaded|]; [|discriminate].
  destruct (apply_snapshot re_match isis loaded) as [snapshot|e] eqn:Hsnap;
    [|discriminate].
  unfold commit_configuration at 1.
  destruct (reload frr_daemon snapshot (frr w)) as [d|] eqn:E; [|discriminate].
  destruct (getitem isis "new_frr_config") as [content|e]; [|discriminate].
  intros H. exists loaded, snapshot.
  split; [reflexivity|]. split; [exact Hsnap|].
  destruct (py_eq content (VStr "")).
  - apply (for_range_shows snapshot 5 Hkeeps (World daemon d (S (commits w))) w');
      [exact (Hkeeps _ _ _ E) | exact H].
  - injection H as <-. simpl. exact (Hkeeps _ _ _ E).
Qed.

(** With owned content, a second run leaves the daemon with the same
    configuration text as the first. *)
Lemma apply_twice_same_text (isis : dict) (vrf : string) (content : value)
    (w w1 w2 : world daemon) :
  (forall cfg d d', reload frr_daemon cfg d = Some d' ->
                    show_running frr_daemon d' = Some cfg) ->
  vrf_suffix isis = Ret vrf ->
  lookup "new_frr_config" isis = Some content ->
  owned_content re_match isis vrf content ->
  apply isis w = (Ret tt, w1) ->
  apply isis w1 = (Ret tt, w2) ->
  show_running frr_daemon (frr w2) = show_running frr_daemon (frr w1).
Proof.
  intros Hkeeps Hvrf Hnew Howned H1 H2.
  destruct (apply_shows_snapshot _ _ _ Hkeeps H1)
    as (loaded & once & _ & Honce & Hshow1).
  destruct (apply_shows_snapshot _ _ _ Hkeeps H2)
    as (loaded' & twice & Hload & Htwice & Hshow2).
  rewrite Hshow1 in Hload. injection Hload as <-.
  rewrite (apply_snapshot_again re_match _ _ _ _ _ Hvrf Hnew Howned Honce)
    in Htwice.
  injection Htwice as <-. congruence.
Qed.

(** X18.  After a run of [apply] that succeeds against a daemon that
    keeps what it takes, the daemon shows the snapshot that the run built
    from the configuration it loaded: every commit of the run carried
    that snapshot. *)
Theorem apply_leaves_snapshot (isis : dict) (w w' : world daemon) :
  (forall cfg d d', reload frr_daemon cfg d = Some d' ->
                    show_running frr_daemon d' = Some cfg) ->
  apply isis w = (Ret tt, w') ->
  exists loaded snapshot,
    show_running frr_daemon (frr w) = Some loaded
    /\ apply_snapshot re_match isis loaded = Ret snapshot
    /\ show_running frr_daemon (frr w') = Some snapshot.
Proof. exact (apply_shows_snapshot isis w w'). Qed.

(** X19.  Two runs of [apply] in a row, with content that the handler
    owns and a daemon that keeps what it takes, leave the daemon with the
    same configuration text after the second run as after the first. *)
Theorem apply_twice_same_configuration (isis : dict) (vrf : string)
    (content : value) (w w1 w2 : world daemon) :
  (forall cfg d d', reload frr_daemon cfg d = Some d' ->
                    show_running frr_daemon d' = Some cfg) ->
  vrf_suffix isis = Ret vrf ->
  lookup "new_frr_config" isis = Some content ->
  owned_content re_match isis vrf content ->
  apply isis w = (Ret tt, w1) ->
  apply isis w1 = (Ret tt, w2) ->
  show_running frr_daemon (frr w2) = show_running frr_daemon (frr w1).
Proof. exact (apply_twice_same_text isis vrf content w w1 w2). Qed.

End ApplyFacts.

(** * What a passing [verify] guarantees, and its other rules *)

Section VerifyMore.

Variable get_interface_config : string -> dict.
Variable set_iter : list string -> list string.
Variable repr : value -> string.

Local Abbreviation verify := (verify get_interface_config set_iter repr).
Local Abbreviation vrf_membership := (vrf_membership get_interface_config repr).
Local Abbreviation spf_delay_timers := (spf_delay_timers set_iter).
Local Abbreviation vrf_member := (vrf_member get_interface_config).

(** *** Loops *)

Lemma for_each_ret {A : Type} (xs : list A) (body : A -> result unit) :
  for_each xs body = Ret tt <-> forall x, In x xs -> body x = Ret tt.
Proof.
  induction xs as [|x rest IH]; simpl.
  - split; [intros _ y [] | reflexivity].
  - split.
    + intros H. apply seq_ret in H as [Hx Hrest].
      intros y [<- | Hy]; [exact Hx | exact (proj1 IH Hrest y Hy)].
    + intros H. rewrite (H x (or_introl eq_refl)). simpl.
      apply IH. intros y Hy. apply H. right. exact Hy.
Qed.

Lemma for_each_first_raise {A : Type} (pre post : list A) (x : A)
    (body : A -> result unit) (e : exn) :
  (forall y, In y pre -> body y = Ret tt) ->
  body x = Raise e ->
  for_each (pre ++ x :: post) body = Raise e.
Proof.
  intros Hpre Hx. induction pre as [|y pre IH]; simpl.
  - rewrite Hx. reflexivity.
  - rewrite (Hpre y (or_introl eq_refl)). simpl.
    apply IH. intros z Hz. apply Hpre. right. exact Hz.
Qed.

Lemma for_each_ext {A : Type} (xs : list A) (f g : A -> result unit) :
  (forall x, f x = g x) -> for_each xs f = for_each xs g.
Proof.
  intros H. induction xs as [|x rest IH]; simpl; [reflexivity|].
  rewrite H, IH. reflexivity.
Qed.

(** *** Every rule passed *)

Lemma verify_accepts_rules (isis : dict) :
  removal isis = false ->
  verify isis = Ret tt ->
  mandatory_fields isis = Ret tt
  /\ vrf_membership isis = Ret tt
  /\ area_password_encryption isis = Ret tt
  /\ spf_delay_timers isis = Ret tt
  /\ redistribute_levels isis = Ret tt
  /\ global_block isis = Ret tt
  /\ local_block isis = Ret tt.
Proof.
  intros Hrem H. rewrite (verify_rules _ _ _ _ Hrem) in H.
  repeat (apply seq_ret in H as [? H]). repeat split; assumption.
Qed.

(** *** The VRF rule *)

Lemma vrf_membership_body (isis : dict) (vrf : value) (interface : string) :
  lookup "vrf" isis = Some vrf ->
  (if contains "vrf" isis then
     vrf' <- getitem isis "vrf" ;;
     let tmp := get_interface_config interface in
     if negb (contains "master" tmp)
        || negb (match lookup "master" tmp with
                 | Some master => py_eq master vrf'
                 | None => false
                 end)
     then Raise (ConfigError ("Interface " ++ interface
                              ++ " is not a member of VRF "
                              ++ py_str repr vrf' ++ "!"))
     else Ret tt
   else Ret tt)
  = if vrf_member vrf interface then Ret tt
    else Raise (ConfigError ("Interface " ++ interface
                             ++ " is not a member of VRF "
                             ++ py_str repr vrf ++ "!")).
Proof.
  intros Hvrf. unfold contains, getitem, vrf_member. rewrite Hvrf. simpl.
  destruct (lookup "master" (get_interface_config interface)) as [master|];
    simpl; [|reflexivity].
  destruct (py_eq master vrf); reflexivity.
Qed.

Lemma vrf_membership_loop (isis : dict) (vrf interfaces : value) :
  lookup "vrf" isis = Some vrf ->
  lookup "interface" isis = Some interfaces ->
  vrf_membership isis =
    for_each (py_iter interfaces) (fun interface =>
      if vrf_member vrf interface then Ret tt
      else Raise (ConfigError ("Interface " ++ interface
                               ++ " is not a member of VRF "
                               ++ py_str repr vrf ++ "!"))).
Proof.
  intros Hvrf Hint.
  transitivity (for_each (py_iter interfaces) (fun interface =>
    if contains "vrf" isis then
      vrf' <- getitem isis "vrf" ;;
      let tmp := get_interface_config interface in
      if negb (contains "master" tmp)
         || negb (match lookup "master" tmp with
                  | Some master => py_eq master vrf'
                  | None => false
                  end)
      then Raise (ConfigError ("Interface " ++ interface
                               ++ " is not a member of VRF "
                               ++ py_str repr vrf' ++ "!"))
      else Ret tt
    else Ret tt)).
  - unfold vrf_membership. unfold getitem at 1. rewrite Hint. reflexivity.
  - apply for_each_ext. intros i. apply vrf_membership_body. exact Hvrf.
Qed.

(** X6.  A configuration of a VRF that [verify] accepts has every one of
    its interfaces bound to that VRF on the host. *)
Theorem verify_accepts_vrf_members (isis : dict) (vrf interfaces : value) :
  removal isis = false ->
  verify isis = Ret tt ->
  lookup "vrf" isis = Some vrf ->
  lookup "interface" isis = Some interfaces ->
  forall interface, In interface (py_iter interfaces) ->
    exists master,
      lookup "master" (get_interface_config interface) = Some master
      /\ py_eq master vrf = true.
Proof.
  intros Hrem Hok Hvrf Hint interface Hin.
  destruct (verify_accepts_rules _ Hrem Hok) as (_ & Hrule & _).
  rewrite (vrf_membership_loop _ _ _ Hvrf Hint) in Hrule.
  rewrite for_each_ret in Hrule. specialize (Hrule interface Hin).
  unfold vrf_member in Hrule.
  destruct (lookup "master" (get_interface_config interface)) as [master|];
    [|discriminate].
  exists master. split; [reflexivity|].
  destruct (py_eq master vrf); [reflexivity | discriminate].
Qed.

(** X7.  When the mandatory fields are present and an interface is not
    bound to the requesting VRF, [verify] raises the ConfigError that
    names the first such interface and the VRF. *)
Theorem verify_rejects_foreign_interface (isis : dict) (vrf interfaces : value)
    (members rest : list string) (interface : string) :
  contains "deleted" isis = false ->
  mandatory_fields isis = Ret tt ->
  lookup "vrf" isis = Some vrf ->
  lookup "interface" isis = Some interfaces ->
  py_iter interfaces = (members ++ interface :: rest)%list ->
  (forall i, In i members -> vrf_member vrf i = true) ->
  vrf_member vrf interface = false ->
  verify isis =
    Raise (ConfigError ("Interface " ++ interface
                        ++ " is not a member of VRF " ++ py_str repr vrf ++ "!")).
Proof.
  intros Hdel Hm Hvrf Hint Hiter Hmembers Hforeign.
  destruct (mandatory_fields_ok _ Hm) as [Hd _].
  rewrite (verify_rules _ _ _ _
             (removal_false _ (contains_nonempty _ _ Hd) Hdel)), Hm.
  rewrite (vrf_membership_loop _ _ _ Hvrf Hint), Hiter.
  rewrite (for_each_first_raise members rest interface _
             (ConfigError ("Interface " ++ interface
                           ++ " is not a member of VRF "
                           ++ py_str repr vrf ++ "!"))).
  - reflexivity.
  - intros i Hi. rewrite (Hmembers i Hi). reflexivity.
  - rewrite Hforeign. reflexivity.
Qed.

(** *** The encryption, the timers and the label blocks *)

(** X9.  A configuration with an area password that [verify] accepts
    has an [encryption] entry, and that entry does not hold both [md5]
    and [plaintext_password]. *)
Theorem verify_accepts_one_encryption (isis : dict) :
  removal isis = false ->
  verify isis = Ret tt ->
  contains "area_password" isis = true ->
  exists encryption,
    lookup "encryption" isis = Some encryption
    /\ mem "md5" (py_iter encryption)
       && mem "plaintext_password" (py_iter encryption) = false.
Proof.
  intros Hrem Hok Hpw.
  destruct (verify_accepts_rules _ Hrem Hok) as (_ & _ & Hrule & _).
  unfold area_password_encryption, getitem in Hrule. rewrite Hpw in Hrule.
  destruct (lookup "encryption" isis) as [encryption|]; [|discriminate].
  exists encryption. split; [reflexivity|].
  simpl in Hrule.
  destruct (mem "md5" (py_iter encryption)
            && mem "plaintext_password" (py_iter encryption));
    [discriminate | reflexivity].
Qed.

(** X10.  A configuration with an [spf_delay_ietf] entry that [verify]
    accepts has all five timers under it. *)
Theorem verify_accepts_all_timers (isis : dict) (spf : value) :
  removal isis = false ->
  verify isis = Ret tt ->
  lookup "spf_delay_ietf" isis = Some spf ->
  forall timer, In timer required_timers -> py_in timer spf = true.
Proof.
  intros Hrem Hok Hspf.
  destruct (verify_accepts_rules _ Hrem Hok) as (_ & _ & _ & Hrule & _).
  rewrite (spf_delay_timers_rule _ _ _ Hspf) in Hrule.
  destruct (forallb (fun t => py_in t spf) required_timers) eqn:E;
    [|discriminate].
  exact (proj1 (forallb_forall _ _) E).
Qed.

Lemma label_block_accepts (block msg_both msg_order : string) (isis : dict) :
  truthy_opt (dict_search ("segment_routing." ++ block) isis) = true ->
  label_block block msg_both msg_order isis = Ret tt ->
  exists low high : Z,
    py_int (dict_search ("segment_routing." ++ block ++ ".low_label_value") isis)
    = Ret low
    /\ py_int (dict_search ("segment_routing." ++ block ++ ".high_label_value")
                 isis)
       = Ret high
    /\ (low <= high)%Z.
Proof.
  intros Hentry H. rewrite (label_block_rule _ _ _ _ Hentry) in H. cbv zeta in H.
  destruct (xorb _ _); [discriminate|].
  destruct (py_int (dict_search
              ("segment_routing." ++ block ++ ".low_label_value") isis))
    as [low|]; [|discriminate].
  destruct (py_int (dict_search
              ("segment_routing." ++ block ++ ".high_label_value") isis))
    as [high|]; [|discriminate].
  exists low, high. split; [reflexivity|]. split; [reflexivity|].
  simpl in H. destruct (low >? high)%Z eqn:E; [discriminate|].
  rewrite Z.gtb_ltb in E. apply Z.ltb_ge in E. exact E.
Qed.

(** X13.  In a configuration that [verify] accepts, a label block of
    segment routing that is present and not empty holds both labels, as
    integers, and the low one does not exceed the high one. *)
Theorem verify_accepts_ordered_labels (isis : dict) :
  removal isis = false ->
  verify isis = Ret tt ->
  (truthy_opt (dict_search "segment_routing.global_block" isis) = true ->
   exists low high : Z,
     py_int (dict_search "segment_routing.global_block.low_label_value" isis)
     = Ret low
     /\ py_int (dict_search "segment_routing.global_block.high_label_value" isis)
        = Ret high
     /\ (low <= high)%Z)
  /\ (truthy_opt (dict_search "segment_routing.local_block" isis) = true ->
      exists low high : Z,
        py_int (dict_search "segment_routing.local_block.low_label_value" isis)
        = Ret low
        /\ py_int (dict_search "segment_routing.local_block.high_label_value" isis)
           = Ret high
        /\ (low <= high)%Z).
Proof.
  intros Hrem Hok.
  destruct (verify_accepts_rules _ Hrem Hok) as (_ & _ & _ & _ & _ & Hg & Hl).
  split; intros Hentry.
  - exact (label_block_accepts "global_block" _ _ isis Hentry Hg).
  - exact (label_block_accepts "local_block" _ _ isis Hentry Hl).
Qed.

(** X5.  A configuration that [verify] accepts and that is not a removal
    holds the three mandatory fields. *)
Theorem verify_accepts_mandatory_fields (isis : dict) :
  removal isis = false ->
  verify isis = Ret tt ->
  contains "domain" isis = true
  /\ contains "net" isis = true
  /\ contains "interface" isis = true.
Proof.
  intros Hrem Hok.
  destruct (verify_accepts_rules _ Hrem Hok) as (Hrule & _).
  exact (mandatory_fields_ok _ Hrule).
Qed.

(** *** The redistribution rule *)

Lemma seq_ret_tt (m : result unit) : (m ;;; Ret tt) = m.
Proof. destruct m as [[]|e]; reflexivity. Qed.

(** The rule as a loop over the protocols under [redistribute.ipv4]. *)
Lemma redistribute_levels_loop (isis r protocols : dict) (proc_level : string) :
  lookup "redistribute" isis = Some (VDict r) ->
  lookup "ipv4" r = Some (VDict protocols) ->
  process_level isis = Some proc_level ->
  redistribute_levels isis =
    for_each protocols (fun entry =>
      if negb (py_in "level_1" (snd entry)) && negb (py_in "level_2" (snd entry))
      then Raise (NameError "process")
      else
        levels <- py_items (snd entry) ;;
        for_each levels (fun level =>
          if level_allowed proc_level (fst level) then Ret tt
          else Raise (NameError "process"))).
Proof.
  intros Hred Hipv4 Hproc. unfold redistribute_levels, contains.
  rewrite Hred. unfold process_level in Hproc.
  assert (Hlevel :
    match lookup "level" isis with
    | None => Ret ""
    | Some (VStr s) => Ret s
    | Some _ => Raise AttributeError
    end = Ret (match lookup "level" isis with Some (VStr s) => s | _ => "" end)
    /\ proc_level = replace_char "-" "_"
         (match lookup "level" isis with Some (VStr s) => s | _ => "" end)).
  { destruct (lookup "level" isis) as [[s| |]|]; try discriminate;
      injection Hproc as <-; split; reflexivity. }
  destruct Hlevel as [-> ->]. cbn [bind for_each].
  rewrite seq_ret_tt. unfold getitem at 1. rewrite Hred. cbn [bind].
  unfold py_in at 1, contains. rewrite Hipv4. cbn [negb].
  unfold py_getitem, getitem. rewrite Hipv4. cbn [bind py_items].
  apply for_each_ext. intros [proto proto_config]. cbn [fst snd].
  destruct (negb (py_in "level_1" proto_config)
            && negb (py_in "level_2" proto_config)); [reflexivity|].
  destruct (py_items proto_config) as [levels|e]; [|reflexivity].
  cbn [bind]. apply for_each_ext. intros [redistr_level redistr_config].
  cbn [fst]. unfold level_allowed.
  destruct (String.eqb _ ""), (String.eqb _ "level_1_2"), (String.eqb _ redistr_level);
    reflexivity.
Qed.

Lemma redistribute_levels_not_string (isis : dict) :
  contains "redistribute" isis = true ->
  process_level isis = None ->
  redistribute_levels isis = Raise AttributeError.
Proof.
  intros Hred Hproc. unfold redistribute_levels. rewrite Hred.
  unfold process_level in Hproc.
  destruct (lookup "level" isis) as [[s| |]|]; try discriminate; reflexivity.
Qed.

(** X11.  When the rules before it pass and some protocol under
    [redistribute.ipv4] has neither [level_1] nor [level_2], or has a
    level that the process level excludes, [verify] ends in an exception
    that is not a ConfigError: both messages of the rule read the unbound
    name [process]. *)
Theorem verify_redistribute_inconsistent (isis r protocols : dict)
    (proto : string) (proto_config : value) :
  contains "deleted" isis = false ->
  mandatory_fields isis = Ret tt ->
  vrf_membership isis = Ret tt ->
  area_password_encryption isis = Ret tt ->
  spf_delay_timers isis = Ret tt ->
  lookup "redistribute" isis = Some (VDict r) ->
  lookup "ipv4" r = Some (VDict protocols) ->
  In (proto, proto_config) protocols ->
  (py_in "level_1" proto_config = false /\ py_in "level_2" proto_config = false)
  \/ (exists levels level config proc_level,
        proto_config = VDict levels
        /\ In (level, config) levels
        /\ process_level isis = Some proc_level
        /\ level_allowed proc_level level = false) ->
  exists e,
    verify isis = Raise e /\ forall msg, e <> ConfigError msg.
Proof.
  intros Hdel Hm Hv Ha Hs Hred Hipv4 Hin Hbad.
  destruct (mandatory_fields_ok _ Hm) as [Hd _].
  rewrite (verify_rules _ _ _ _
             (removal_false _ (contains_nonempty _ _ Hd) Hdel)), Hm, Hv, Ha, Hs.
  cbn [bind].
  assert (Hraise : redistribute_levels isis <> Ret tt).
  { destruct (process_level isis) as [proc_level|] eqn:Hproc.
    - rewrite (redistribute_levels_loop _ _ _ _ Hred Hipv4 Hproc).
      intros Hall. rewrite for_each_ret in Hall.
      specialize (Hall _ Hin). cbn [snd] in Hall.
      destruct Hbad as [[H1 H2] | (levels & level & config & p & -> & Hl & Hp & Hno)].
      + rewrite H1, H2 in Hall. discriminate.
      + destruct (negb (py_in "level_1" (VDict levels))
                  && negb (py_in "level_2" (VDict levels))); [discriminate|].
        cbn [py_items bind] in Hall. rewrite for_each_ret in Hall.
        specialize (Hall _ Hl). cbn [fst] in Hall.
        assert (p = proc_level) by congruence. subst p.
        rewrite Hno in Hall. discriminate.
    - rewrite redistribute_levels_not_string; [discriminate | | exact Hproc].
      unfold contains. rewrite Hred. reflexivity. }
  destruct (redistribute_levels isis) as [[]|e] eqn:E; [contradiction|].
  exists e. split; [reflexivity|].
  intros msg ->. exact (redistribute_levels_no_config_error isis msg E).
Qed.

(** X12.  The redistribution rule passes when every protocol under
    [redistribute.ipv4] is a mapping that holds [level_1] or [level_2]
    and all of whose levels the process level allows; a process level that
    is absent or [level-1-2] allows every level. *)
Theorem redistribute_levels_consistent (isis r protocols : dict)
    (proc_level : string) :
  lookup "redistribute" isis = Some (VDict r) ->
  lookup "ipv4" r = Some (VDict protocols) ->
  process_level isis = Some proc_level ->
  (forall proto proto_config, In (proto, proto_config) protocols ->
     exists levels,
       proto_config = VDict levels
       /\ contains "level_1" levels || contains "level_2" levels = true
       /\ forall level config, In (level, config) levels ->
            level_allowed proc_level level = true) ->
  redistribute_levels isis = Ret tt.
Proof.
  intros Hred Hipv4 Hproc Hall.
  rewrite (redistribute_levels_loop _ _ _ _ Hred Hipv4 Hproc).
  apply for_each_ret. intros [proto proto_config] Hin. cbn [snd].
  destruct (Hall _ _ Hin) as (levels & -> & Hone & Hlevels).
  cbn [py_in].
  destruct (contains "level_1" levels), (contains "level_2" levels);
    try discriminate; cbn [negb andb py_items bind];
    apply for_each_ret; intros [level config] Hl; cbn [fst];
    rewrite (Hlevels _ _ Hl); reflexivity.
Qed.

End VerifyMore.

(** * The stages together *)

Section PipelineFacts.

Variable get_config_dict : list string -> dict.
Variable conf_exists : list string -> bool.
Variable node_changed : list string -> list string.
Variable get_interface_config : string -> dict.
Variable set_iter : list string -> list string.
Variable repr : value -> string.
Variable render_to_string : string -> dict -> string.
Variable re_match : string -> string -> bool.
Variable daemon : Type.
Variable show_running : string -> daemon -> option (list string).
Variable reload : string -> list string -> daemon -> option daemon.

(** *** Storing an entry *)

Lemma lookup_setitem (k k' : string) (v : value) (d : dict) :
  lookup k' (setitem k v d) = if String.eqb k' k then Some v else lookup k' d.
Proof.
  induction d as [|[k0 v0] d IH]; simpl.
  - reflexivity.
  - destruct (String.eqb k k0) eqn:E; simpl.
    + apply String.eqb_eq in E. subst k0.
      destruct (String.eqb k' k); reflexivity.
    + rewrite IH. destruct (String.eqb k' k0) eqn:E0; [|reflexivity].
      destruct (String.eqb k' k) eqn:E1; [|reflexivity].
      apply String.eqb_eq in E0, E1. subst. rewrite String.eqb_refl in E.
      discriminate.
Qed.

Lemma setitem_nonempty (k : string) (v : value) (d : dict) :
  Nat.eqb (List.length (setitem k v d)) 0 = false.
Proof.
  destruct d as [|[k0 v0] d]; simpl; [reflexivity|].
  destruct (String.eqb k k0); reflexivity.
Qed.

Lemma lookup_generate (isis : dict) (k : string) :
  lookup k (generate render_to_string isis) =
    if String.eqb k "new_frr_config"
    then Some (VStr (if removal isis then ""
                     else render_to_string "frr/isis.frr.tmpl" isis))
    else lookup k isis.
Proof.
  unfold generate. destruct (removal isis); apply lookup_setitem.
Qed.

(** X15.  [generate] sets the entry [new_frr_config], to the empty text
    for a removal and to the rendered template otherwise, and leaves
    every other entry of the dict as it was. *)
Theorem generate_sets_one_entry (isis : dict) :
  lookup "new_frr_config" (generate render_to_string isis)
  = Some (VStr (if removal isis then ""
                else render_to_string "frr/isis.frr.tmpl" isis))
  /\ forall k, k <> "new_frr_config" ->
       lookup k (generate render_to_string isis) = lookup k isis.
Proof.
  split.
  - rewrite lookup_generate. reflexivity.
  - intros k Hk. rewrite lookup_generate.
    destruct (String.eqb k "new_frr_config") eqn:E; [|reflexivity].
    apply String.eqb_eq in E. contradiction.
Qed.

(** *** [verify] reads entries, not positions *)

(** Two dicts hold the same entries, [new_frr_config] apart. *)
Lemma contains_same (d d' : dict) (k : string) :
  lookup k d = lookup k d' -> contains k d = contains k d'.
Proof. unfold contains. intros ->. reflexivity. Qed.

Lemma dict_search_segment_routing (tail : string) (d : dict) :
  dict_search ("segment_routing." ++ tail) d =
    match lookup "segment_routing" d with
    | Some w => dict_search_parts (split_on "." tail) w
    | None => None
    end.
Proof. reflexivity. Qed.

Lemma label_block_same (block msg_both msg_order : string) (d d' : dict) :
  lookup "segment_routing" d = lookup "segment_routing" d' ->
  label_block block msg_both msg_order d = label_block block msg_both msg_order d'.
Proof.
  intros H. unfold label_block.
  rewrite !dict_search_segment_routing, H. reflexivity.
Qed.

Lemma verify_same_entries (d d' : dict) :
  (forall k, k <> "new_frr_config" -> lookup k d = lookup k d') ->
  Nat.eqb (List.length d) 0 = Nat.eqb (List.length d') 0 ->
  verify get_interface_config set_iter repr d
  = verify get_interface_config set_iter repr d'.
Proof.
  intros H Hlen.
  assert (Hc : forall k, k <> "new_frr_config" -> contains k d = contains k d')
    by (intros k Hk; apply contains_same, H, Hk).
  assert (Hg : forall k, k <> "new_frr_config" -> getitem d k = getitem d' k)
    by (intros k Hk; unfold getitem; rewrite (H k Hk); reflexivity).
  unfold verify, removal. rewrite Hlen, (Hc "deleted") by discriminate.
  destruct (_ || _); [reflexivity|].
  assert (E1 : mandatory_fields d = mandatory_fields d').
  { unfold mandatory_fields.
    rewrite (Hc "domain"), (Hc "net"), (Hc "interface") by discriminate.
    reflexivity. }
  assert (E2 : vrf_membership get_interface_config repr d
               = vrf_membership get_interface_config repr d').
  { unfold vrf_membership. rewrite (Hg "interface") by discriminate.
    destruct (getitem d' "interface") as [interfaces|e]; [|reflexivity].
    cbn [bind]. apply for_each_ext. intros interface.
    rewrite (Hc "vrf"), (Hg "vrf") by discriminate. reflexivity. }
  assert (E3 : area_password_encryption d = area_password_encryption d').
  { unfold area_password_encryption.
    rewrite (Hc "area_password"), (Hg "encryption") by discriminate.
    reflexivity. }
  assert (E4 : spf_delay_timers set_iter d = spf_delay_timers set_iter d').
  { unfold spf_delay_timers.
    rewrite (Hc "spf_delay_ietf"), (Hg "spf_delay_ietf") by discriminate.
    reflexivity. }
  assert (E5 : redistribute_levels d = redistribute_levels d').
  { unfold redistribute_levels.
    rewrite (Hc "redistribute"), (H "level") by discriminate.
    destruct (contains "redistribute" d'); [|reflexivity].
    destruct (match lookup "level" d' with
              | Some (VStr s) => Ret s
              | Some _ => Raise AttributeError
              | None => Ret ""
              end) as [level|e]; [|reflexivity].
    cbn [bind]. apply for_each_ext. intros afi.
    rewrite (Hg "redistribute") by discriminate. reflexivity. }
  assert (E6 : global_block d = global_block d')
    by (apply label_block_same, H; discriminate).
  assert (E7 : local_block d = local_block d')
    by (apply label_block_same, H; discriminate).
  rewrite E1, E2, E3, E4, E5, E6, E7. reflexivity.
Qed.

(** X16.  Rendering does not change the verdict of [verify] on a dict
    that is not empty; an empty dict, which [verify] accepts as a removal,
    is no longer empty once [generate] has stored its entry, and is then
    rejected for its missing domain. *)
Theorem verify_after_generate (isis : dict) :
  (isis <> [] ->
   verify get_interface_config set_iter repr (generate render_to_string isis)
   = verify get_interface_config set_iter repr isis)
  /\ (isis = [] ->
      verify get_interface_config set_iter repr isis = Ret tt
      /\ verify get_interface_config set_iter repr (generate render_to_string isis)
         = Raise (ConfigError "Routing domain name/tag must be set!")).
Proof.
  split.
  - intros Hne. apply verify_same_entries.
    + intros k Hk. rewrite lookup_generate.
      destruct (String.eqb k "new_frr_config") eqn:E; [|reflexivity].
      apply String.eqb_eq in E. contradiction.
    + unfold generate. destruct (removal isis); rewrite setitem_nonempty;
        destruct isis; [contradiction | reflexivity | contradiction | reflexivity].
  - intros ->. split; reflexivity.
Qed.

(** X14.  [verify] depends on what the dict holds under each key, not
    on the order of its entries: two dicts that are not empty and hold
    the same value under every key get the same verdict. *)
Theorem verify_ignores_order (d d' : dict) :
  d <> [] -> d' <> [] ->
  (forall k, lookup k d = lookup k d') ->
  verify get_interface_config set_iter repr d
  = verify get_interface_config set_iter repr d'.
Proof.
  intros Hd Hd' H. apply verify_same_entries.
  - intros k _. apply H.
  - destruct d, d'; try contradiction; reflexivity.
Qed.

(** X8.  Without a [vrf] entry, [verify] never consults the host's
    interface state: its verdict is the same on every host. *)
Theorem verify_without_vrf_ignores_host (other_host : string -> dict)
    (isis : dict) :
  contains "vrf" isis = false ->
  verify get_interface_config set_iter repr isis
  = verify other_host set_iter repr isis.
Proof.
  intros Hvrf. unfold verify. destruct (removal isis); [reflexivity|].
  assert (E : vrf_membership get_interface_config repr isis
              = vrf_membership other_host repr isis).
  { unfold vrf_membership.
    destruct (getitem isis "interface") as [interfaces|e]; [|reflexivity].
    cbn [bind]. apply for_each_ext. intros interface. rewrite Hvrf.
    reflexivity. }
  rewrite E. reflexivity.
Qed.

(** *** [get_config] *)

Local Abbreviation get_config :=
  (get_config get_config_dict conf_exists node_changed).

Lemma contains_setitem (k : string) (v : value) (d : dict) :
  contains k (setitem k v d) = true.
Proof. unfold contains. rewrite lookup_setitem, String.eqb_refl. reflexivity. Qed.

(** The entries of the result, read from the last update to the first. *)
Lemma lookup_get_config (argv : list string) (k : string) :
  let vrf := argv_vrf argv in
  let base := isis_base vrf in
  let removed := node_changed (base ++ ["interface"])%list in
  lookup k (get_config argv) =
    if String.eqb k "deleted" && negb (conf_exists base)
    then Some (VStr "")
    else if String.eqb k "interface_removed"
            && negb (Nat.eqb (List.length removed) 0)
    then Some (VList removed)
    else if String.eqb k "vrf" && vrf_given vrf
    then match vrf with Some name => Some (VStr name) | None => None end
    else lookup k (get_config_dict base).
Proof.
  intros vrf base removed. unfold get_config.
  fold vrf. fold base. fold removed.
  destruct (conf_exists base); cbn [negb];
    rewrite ?lookup_setitem, ?andb_false_r, ?andb_true_r.
  all: destruct (String.eqb k "deleted"); try reflexivity.
  all: destruct (Nat.eqb (List.length removed) 0); cbn [negb];
    rewrite ?lookup_setitem, ?andb_false_r, ?andb_true_r.
  all: destruct (String.eqb k "interface_removed"); try reflexivity.
  all: destruct vrf as [name|]; cbn [vrf_given];
    rewrite ?andb_false_r; try reflexivity.
  all: destruct (negb (String.eqb name ""));
    rewrite ?lookup_setitem, ?andb_false_r, ?andb_true_r;
    destruct (String.eqb k "vrf"); reflexivity.
Qed.

(** X1.  When the tree does not exist, the dict that [get_config]
    returns is tagged [deleted], whatever the backend still returns for
    the path, and [verify] accepts it. *)
Theorem get_config_missing_tree (argv : list string) :
  conf_exists (isis_base (argv_vrf argv)) = false ->
  lookup "deleted" (get_config argv) = Some (VStr "")
  /\ verify get_interface_config set_iter repr (get_config argv) = Ret tt.
Proof.
  intros Hex.
  assert (Hdel : lookup "deleted" (get_config argv) = Some (VStr "")).
  { rewrite lookup_get_config. cbv zeta. rewrite Hex. reflexivity. }
  split; [exact Hdel|].
  unfold verify, removal, contains. rewrite Hdel, orb_true_r. reflexivity.
Qed.

(** X2.  With a VRF name as argument, [get_config] reads the subtree
    of that VRF and stores the name under [vrf], also when the tree is
    gone and the dict is tagged [deleted]; [apply] then addresses the
    sections of that VRF. *)
Theorem get_config_vrf_instance (prog name : string) (rest : list string) :
  name <> "" ->
  let isis := get_config (prog :: name :: rest) in
  lookup "vrf" isis = Some (VStr name)
  /\ vrf_suffix isis = Ret (" vrf " ++ name)
  /\ forall k, k <> "vrf" -> k <> "interface_removed" -> k <> "deleted" ->
       lookup k isis
       = lookup k (get_config_dict ["vrf"; "name"; name; "protocols"; "isis"]).
Proof.
  intros Hname isis. subst isis.
  assert (Hgiven : negb (String.eqb name "") = true).
  { destruct (String.eqb name "") eqn:E; [|reflexivity].
    apply String.eqb_eq in E. contradiction. }
  assert (Hvrf : lookup "vrf" (get_config (prog :: name :: rest))
                 = Some (VStr name)).
  { rewrite lookup_get_config. cbv zeta. cbn [argv_vrf vrf_given].
    rewrite Hgiven. reflexivity. }
  split; [exact Hvrf|]. split.
  - unfold vrf_suffix, contains, getitem. rewrite Hvrf. reflexivity.
  - intros k Hk1 Hk2 Hk3. rewrite lookup_get_config. cbv zeta.
    cbn [argv_vrf vrf_given isis_base]. rewrite Hgiven.
    apply String.eqb_neq in Hk1, Hk2, Hk3. rewrite Hk1, Hk2, Hk3.
    reflexivity.
Qed.

(** X3.  Without a VRF name (no argument, or an empty one),
    [get_config] reads the default instance at [protocols isis] and adds
    no [vrf] entry of its own. *)
Theorem get_config_default_instance (argv : list string) :
  vrf_given (argv_vrf argv) = false ->
  forall k, k <> "interface_removed" -> k <> "deleted" ->
    lookup k (get_config argv) = lookup k (get_config_dict ["protocols"; "isis"]).
Proof.
  intros Hgiven k Hk2 Hk3. rewrite lookup_get_config. cbv zeta.
  rewrite Hgiven, andb_false_r.
  apply String.eqb_neq in Hk2, Hk3. rewrite Hk2, Hk3. cbn [andb].
  unfold isis_base. destruct (argv_vrf argv); [rewrite Hgiven|]; reflexivity.
Qed.


(** *** [apply] and the entry point *)

Local Abbreviation apply := (apply re_match daemon show_running reload).
Local Abbreviation commit_configuration :=
  (commit_configuration daemon reload frr_daemon).
Local Abbreviation main :=
  (main get_config_dict conf_exists node_changed get_interface_config
     set_iter repr render_to_string re_match daemon show_running reload).

(** X17.  [apply] commits nothing unless it has built the snapshot:
    when the load fails, when [vrf] is not a string, or when
    [new_frr_config] is missing, it ends in that error without a call of
    [commit_configuration], and the daemon is as it was. *)
Theorem apply_failure_commits_nothing (isis : dict) (w : world daemon) :
  (show_running frr_daemon (frr w) = None ->
   apply isis w = (Raise CommitError, w))
  /\ (show_running frr_daemon (frr w) <> None ->
      (vrf_suffix isis = Raise TypeError ->
       apply isis w = (Raise TypeError, w))
      /\ (forall vrf, vrf_suffix isis = Ret vrf ->
          lookup "new_frr_config" isis = None ->
          apply isis w = (Raise (KeyError "new_frr_config"), w))).
Proof.
  unfold apply, io_bind, load_configuration, lift.
  split.
  - intros ->. reflexivity.
  - intros Hload.
    destruct (show_running frr_daemon (frr w)) as [loaded|]; [|contradiction].
    unfold apply_snapshot, getitem. split.
    + intros ->. reflexivity.
    + intros vrf -> ->. reflexivity.
Qed.

Lemma for_range_accepting (config : list string) (n : nat) :
  (forall cfg d, reload frr_daemon cfg d <> None) ->
  forall w : world daemon,
    exists w',
      for_range daemon n (commit_configuration config) w = (Ret tt, w')
      /\ commits w' = commits w + n.
Proof.
  intros Hacc. induction n as [|n IH]; intros w; simpl.
  - exists w. split; [reflexivity | lia].
  - unfold io_bind, commit_configuration at 1.
    destruct (reload frr_daemon config (frr w)) as [d|] eqn:E;
      [|exfalso; exact (Hacc _ _ E)].
    destruct (IH (World daemon d (S (commits w)))) as (w' & -> & Hc).
    exists w'. split; [reflexivity|]. simpl in Hc. lia.
Qed.

(** Against a daemon that takes every commit, a run that can build its
    snapshot succeeds, with six commits for an empty text and one
    otherwise. *)
Lemma apply_accepting (isis : dict) (w : world daemon) (loaded : list string)
    (vrf text : string) :
  (forall cfg d, reload frr_daemon cfg d <> None) ->
  show_running frr_daemon (frr w) = Some loaded ->
  vrf_suffix isis = Ret vrf ->
  lookup "new_frr_config" isis = Some (VStr text) ->
  exists w',
    apply isis w = (Ret tt, w')
    /\ commits w' = commits w + (if String.eqb text "" then 6 else 1).
Proof.
  intros Hacc Hload Hvrf Hnew.
  unfold apply, io_bind, load_configuration, lift. rewrite Hload.
  rewrite (apply_snapshot_eq re_match isis vrf (VStr text) loaded Hvrf Hnew).
  unfold commit_configuration at 1.
  destruct (reload frr_daemon _ (frr w)) as [d|] eqn:E;
    [|exfalso; exact (Hacc _ _ E)].
  unfold getitem. rewrite Hnew. cbn [py_eq].
  destruct (String.eqb text "").
  - destruct (for_range_accepting
                (add_before re_match before_anchor (VStr text)
                   (remove_sections re_match (owned_anchors isis vrf) loaded))
                5 Hacc (World daemon d (S (commits w)))) as (w' & -> & Hc).
    exists w'. split; [reflexivity|]. simpl in Hc. lia.
  - eexists. split; [reflexivity|]. simpl. lia.
Qed.

Lemma vrf_suffix_generate (isis : dict) :
  vrf_suffix (generate render_to_string isis) = vrf_suffix isis.
Proof.
  unfold vrf_suffix, contains, getitem. rewrite lookup_generate. reflexivity.
Qed.

(** X20.  When [verify] raises, the entry point neither renders nor
    contacts the daemon: a ConfigError is printed and the status is 1,
    any other exception is not caught, and the daemon is as it was. *)
Theorem main_validation_gate (argv : list string) (w : world daemon) (e : exn) :
  verify get_interface_config set_iter repr (get_config argv) = Raise e ->
  main argv w = (handled e, w)
  /\ (forall msg, e = ConfigError msg -> main argv w = (Exit 1 [msg], w))
  /\ ((forall msg, e <> ConfigError msg) -> main argv w = (Traceback e, w)).
Proof.
  intros H. unfold main. rewrite H. split; [reflexivity|]. split.
  - intros msg ->. reflexivity.
  - intros Hno. destruct e; try reflexivity. exfalso. exact (Hno msg eq_refl).
Qed.

(** X21.  When [verify] accepts and the daemon loads and takes every
    commit, the entry point exits with status 0 after six commits for a
    removal or an empty rendering, and after one commit otherwise. *)
Theorem main_accepted (argv : list string) (w : world daemon)
    (loaded : list string) (vrf : string) :
  let isis := get_config argv in
  verify get_interface_config set_iter repr isis = Ret tt ->
  vrf_suffix isis = Ret vrf ->
  show_running frr_daemon (frr w) = Some loaded ->
  (forall cfg d, reload frr_daemon cfg d <> None) ->
  exists w',
    main argv w = (Exit 0 [], w')
    /\ commits w' =
       commits w
       + (if removal isis
             || String.eqb (render_to_string "frr/isis.frr.tmpl" isis) ""
          then 6 else 1).
Proof.
  intros isis Hok Hvrf Hload Hacc. subst isis. unfold main. rewrite Hok.
  rewrite <- vrf_suffix_generate in Hvrf.
  destruct (apply_accepting (generate render_to_string (get_config argv)) w
              loaded vrf _ Hacc Hload Hvrf
              (lookup_generate (get_config argv) "new_frr_config"))
    as (w' & -> & Hc).
  exists w'. split; [reflexivity|]. rewrite Hc.
  destruct (removal (get_config argv)); reflexivity.
Qed.

(** X22.  Removing the tree end to end: when the tree does not exist,
    the run passes validation, renders the empty text and, with a daemon
    that loads and takes every commit, exits with status 0 after six
    commits. *)
Theorem main_removes_tree (argv : list string) (w : world daemon)
    (loaded : list string) (vrf : string) :
  conf_exists (isis_base (argv_vrf argv)) = false ->
  vrf_suffix (get_config argv) = Ret vrf ->
  show_running frr_daemon (frr w) = Some loaded ->
  (forall cfg d, reload frr_daemon cfg d <> None) ->
  exists w',
    main argv w = (Exit 0 [], w') /\ commits w' = commits w + 6.
Proof.
  intros Hex Hvrf Hload Hacc.
  assert (Hdel : lookup "deleted" (get_config argv) = Some (VStr ""))
    by (rewrite lookup_get_config; cbv zeta; rewrite Hex; reflexivity).
  assert (Hrem : removal (get_config argv) = true)
    by (unfold removal, contains; rewrite Hdel; apply orb_true_r).
  unfold main, verify. rewrite Hrem.
  rewrite <- vrf_suffix_generate in Hvrf.
  assert (Hnew : lookup "new_frr_config"
                   (generate render_to_string (get_config argv))
                 = Some (VStr ""))
    by (rewrite lookup_generate, Hrem; reflexivity).
  destruct (apply_accepting _ w loaded vrf "" Hacc Hload Hvrf Hnew)
    as (w' & -> & Hc).
  exists w'. split; [reflexivity | exact Hc].
Qed.

End PipelineFacts.

(** * The statements at sample configurations *)

Section Samples.

Import Sample.

Local Abbreviation verify := (verify host in_order plain_repr).
Local Abbreviation apply_snapshot := (apply_snapshot Re.re_match).
Local Abbreviation apply := (apply Re.re_match (list string) show take).

Lemma verify_removal_returns_witness :
  contains "deleted" deleted = true /\ verify deleted = Ret tt.
Proof.
  split; [reflexivity|].
  apply verify_removal_returns. right. reflexivity.
Defined.

Lemma verify_mandatory_fields_witness :
  verify no_domain = Raise (ConfigError "Routing domain name/tag must be set!")
  /\ verify no_net = Raise (ConfigError "Network entity is mandatory!")
  /\ verify no_interface =
       Raise (ConfigError "Interface used for routing updates is mandatory!").
Proof.
  split; [|split].
  - apply (verify_mandatory_fields host in_order plain_repr no_domain);
      [discriminate | reflexivity | reflexivity].
  - apply (verify_mandatory_fields host in_order plain_repr no_net);
      [discriminate | reflexivity | reflexivity | reflexivity].
  - apply (verify_mandatory_fields host in_order plain_repr no_interface);
      [discriminate | reflexivity | reflexivity | reflexivity | reflexivity].
Defined.

Lemma verify_area_password_exclusive_witness :
  verify both_encryptions = Raise (ConfigError
    "Can not use both md5 and plaintext-password for ISIS area-password!").
Proof.
  apply (verify_area_password_exclusive host in_order plain_repr
           both_encryptions
           (VDict [("md5", VDict []); ("plaintext_password", VDict [])]));
    reflexivity.
Defined.

(** C6 fails as stated: a dict tagged [deleted] passes whatever its
    encryption flags. *)
Lemma verify_deleted_ignores_encryptions :
  contains "area_password" deleted_both_encryptions = true
  /\ lookup "encryption" deleted_both_encryptions
     = Some (VDict [("md5", VDict []); ("plaintext_password", VDict [])])
  /\ verify deleted_both_encryptions = Ret tt.
Proof. repeat split. Qed.

(** C9 fails as stated: with [area_password] and without [encryption], a
    dict tagged [deleted] makes [verify] return, and a dict without
    [domain] makes it raise a ConfigError. *)
Lemma verify_missing_encryption_not_reached :
  contains "area_password" deleted_password = true
  /\ contains "encryption" deleted_password = false
  /\ verify deleted_password = Ret tt
  /\ contains "area_password" no_domain_password = true
  /\ contains "encryption" no_domain_password = false
  /\ verify no_domain_password
     = Raise (ConfigError "Routing domain name/tag must be set!").
Proof. repeat split. Qed.

Lemma verify_area_password_missing_encryption_witness :
  contains "area_password" password_without_encryption = true
  /\ contains "encryption" password_without_encryption = false
  /\ verify password_without_encryption = Raise (KeyError "encryption").
Proof.
  split; [reflexivity|]. split; [reflexivity|].
  destruct (verify_area_password_missing_encryption host in_order plain_repr
              password_without_encryption eq_refl eq_refl eq_refl)
    as [_ [_ Hreached]].
  exact (Hreached eq_refl eq_refl).
Defined.

(** C4 fails as stated: under an [spf_delay_ietf] that holds none of the
    five timers, [verify] raises the error of the rule; and with all five
    timers present it still raises a ConfigError when an earlier rule
    fails. *)
Lemma verify_empty_spf_delay_raises :
  lookup "spf_delay_ietf" empty_spf_delay = Some (VDict [])
  /\ forallb (fun t => negb (py_in t (VDict []))) required_timers = true
  /\ verify empty_spf_delay = Raise (ConfigError
       "All types of delay must be specified: holddown, init-delay, long-delay, short-delay, time-to-learn")
  /\ spf_delay_timers in_order no_domain_full_timers = Ret tt
  /\ verify no_domain_full_timers
     = Raise (ConfigError "Routing domain name/tag must be set!").
Proof. repeat split. Qed.

Lemma verify_spf_delay_timers_witness :
  verify partial_spf_delay = Raise (ConfigError
    "All types of delay must be specified: long-delay, short-delay, time-to-learn")
  /\ spf_delay_timers in_order full_spf_delay = Ret tt.
Proof.
  split.
  - apply (verify_spf_delay_timers host in_order plain_repr partial_spf_delay
             (VDict [("holddown", VStr "10"); ("init_delay", VStr "50")]));
      try reflexivity.
    exists "long_delay". split; [simpl; tauto | reflexivity].
  - apply (verify_spf_delay_timers host in_order plain_repr full_spf_delay
             (VDict [("holddown", VStr "10"); ("init_delay", VStr "50");
                     ("long_delay", VStr "200"); ("short_delay", VStr "100");
                     ("time_to_learn", VStr "75")]));
      try reflexivity.
    intros t Ht. simpl in Ht.
    destruct Ht as [<- | [<- | [<- | [<- | [<- | []]]]]]; reflexivity.
Defined.

(** C3.  With a protocol under [redistribute.ipv4] that has neither
    [level_1] nor [level_2], [verify] ends in a NameError for [process],
    not in the ConfigError that the rule means to raise. *)
Theorem verify_redistribute_without_level :
  verify redistribute_without_level = Raise (NameError "process").
Proof. reflexivity. Qed.



(** C10 fails as stated: with a block that holds no label, a dict tagged
    [deleted] makes [verify] return, and a dict without [domain] makes it
    raise a ConfigError. *)
Lemma verify_block_without_labels_not_reached :
  verify deleted_block_without_labels = Ret tt
  /\ verify no_domain_block_without_labels
     = Raise (ConfigError "Routing domain name/tag must be set!").
Proof. repeat split. Qed.

Lemma verify_label_block_without_labels_witness :
  verify (labels "global_block" [("comment", VStr "labels")]) = Raise TypeError
  /\ verify (labels "local_block" [("comment", VStr "labels")]) = Raise TypeError.
Proof.
  split.
  - destruct (verify_label_block_without_labels host in_order plain_repr
                (labels "global_block" [("comment", VStr "labels")]) eq_refl)
      as [Hglobal _].
    destruct (Hglobal eq_refl eq_refl eq_refl) as [_ Hreached].
    exact (Hreached eq_refl eq_refl eq_refl eq_refl eq_refl).
  - destruct (verify_label_block_without_labels host in_order plain_repr
                (labels "local_block" [("comment", VStr "labels")]) eq_refl)
      as [_ Hlocal].
    destruct (Hlocal eq_refl eq_refl eq_refl) as [_ Hreached].
    exact (Hreached eq_refl eq_refl eq_refl eq_refl eq_refl eq_refl).
Defined.



Lemma apply_commit_count_witness :
  commits (snd (apply removed (World _ running 0))) = 6
  /\ commits (snd (apply rendered (World _ running 0))) = 1.
Proof.
  split.
  - rewrite <- (Nat.sub_0_r (commits (snd (apply removed (World _ running 0))))).
    destruct (apply_commit_count Re.re_match (list string) show take
                removed (World _ running 0) running
                ["frr version 7.5"; "interface eth2"; " description uplink";
                 "route-map FOO permit 10"; "line vty"]
                (VStr "") eq_refl eq_refl eq_refl) as [_ [Hempty _]].
    destruct (Hempty eq_refl) as [_ [Hall _]].
    apply Hall. reflexivity.
  - rewrite <- (Nat.sub_0_r (commits (snd (apply rendered (World _ running 0))))).
    destruct (apply_commit_count Re.re_match (list string) show take
                rendered (World _ running 0) running
                ["frr version 7.5"; "interface eth2"; " description uplink";
                 "interface eth0"; " ip router isis FOO"; "router isis FOO";
                 " net 49.0001.1921.6800.1002.00"; "";
                 "route-map FOO permit 10"; "line vty"]
                (VStr rendered_text) eq_refl eq_refl eq_refl) as [Hone _].
    apply Hone. discriminate.
Defined.

End Samples.

(** * The further statements at sample configurations *)

Section MoreSamples.

Import Sample.

Local Abbreviation main_nd :=
  (main tree_without_domain always none_removed host in_order plain_repr render
     Re.re_match (list string) show take).
Local Abbreviation get_config := (get_config tree tree_exists tree_removed).
Local Abbreviation apply := (apply Re.re_match (list string) show take).
Local Abbreviation main :=
  (main tree tree_exists tree_removed host in_order plain_repr render
     Re.re_match (list string) show take).

Lemma keeps_what_it_takes (cfg d d' : list string) :
  take frr_daemon cfg d = Some d' -> show frr_daemon d' = Some cfg.
Proof. intros [= <-]. reflexivity. Qed.

Lemma takes_every_commit (cfg d : list string) : take frr_daemon cfg d <> None.
Proof. discriminate. Qed.

Lemma get_config_missing_tree_witness :
  lookup "deleted" (get_config ["prog"; "red"]) = Some (VStr "")
  /\ verify host in_order plain_repr (get_config ["prog"; "red"]) = Ret tt.
Proof.
  exact (get_config_missing_tree tree tree_exists tree_removed host in_order
           plain_repr ["prog"; "red"] eq_refl).
Defined.

Lemma get_config_vrf_instance_witness :
  lookup "vrf" (get_config ["prog"; "red"]) = Some (VStr "red")
  /\ vrf_suffix (get_config ["prog"; "red"]) = Ret " vrf red".
Proof.
  destruct (get_config_vrf_instance tree tree_exists tree_removed
              "prog" "red" []) as (H1 & H2 & _); [discriminate|].
  split; [exact H1 | exact H2].
Defined.

Lemma get_config_default_instance_witness :
  lookup "domain" (get_config ["prog"; ""]) = Some (VStr "FOO").
Proof.
  rewrite (get_config_default_instance tree tree_exists tree_removed
             ["prog"; ""] eq_refl "domain");
    [reflexivity | discriminate | discriminate].
Defined.


Lemma verify_accepts_mandatory_fields_witness :
  verify host in_order plain_repr base = Ret tt /\ contains "domain" base = true.
Proof.
  split; [reflexivity|].
  exact (proj1 (verify_accepts_mandatory_fields host in_order plain_repr base
                  eq_refl eq_refl)).
Defined.

Lemma verify_accepts_vrf_members_witness :
  exists master,
    lookup "master" (host "eth0") = Some master
    /\ py_eq master (VStr "red") = true.
Proof.
  apply (verify_accepts_vrf_members host in_order plain_repr in_red
           (VStr "red") (VDict [("eth0", VDict [])])
           eq_refl eq_refl eq_refl eq_refl).
  left. reflexivity.
Defined.

Lemma verify_rejects_foreign_interface_witness :
  verify host in_order plain_repr in_blue
  = Raise (ConfigError "Interface eth0 is not a member of VRF blue!").
Proof.
  apply (verify_rejects_foreign_interface host in_order plain_repr in_blue
           (VStr "blue") (VDict [("eth0", VDict [])]) [] [] "eth0");
    try reflexivity.
  intros i [].
Defined.

Lemma verify_without_vrf_ignores_host_witness :
  verify host in_order plain_repr both_encryptions = verify bare_host in_order plain_repr both_encryptions.
Proof.
  exact (verify_without_vrf_ignores_host host in_order plain_repr bare_host
           both_encryptions eq_refl).
Defined.

Lemma verify_accepts_one_encryption_witness :
  exists encryption,
    lookup "encryption" password_md5 = Some encryption
    /\ mem "md5" (py_iter encryption)
       && mem "plaintext_password" (py_iter encryption) = false.
Proof.
  exact (verify_accepts_one_encryption host in_order plain_repr
           password_md5 eq_refl eq_refl eq_refl).
Defined.

Lemma verify_accepts_all_timers_witness :
  py_in "time_to_learn"
    (VDict [("holddown", VStr "10"); ("init_delay", VStr "50");
            ("long_delay", VStr "200"); ("short_delay", VStr "100");
            ("time_to_learn", VStr "75")]) = true.
Proof.
  apply (verify_accepts_all_timers host in_order plain_repr full_spf_delay
           _ eq_refl eq_refl eq_refl).
  simpl. tauto.
Defined.

Lemma verify_redistribute_inconsistent_witness :
  exists e,
    verify host in_order plain_repr level_1_static_level_2 = Raise e /\ forall msg, e <> ConfigError msg.
Proof.
  apply (verify_redistribute_inconsistent host in_order plain_repr
           level_1_static_level_2
           [("ipv4", VDict [("static", VDict [("level_2", VDict [])])])]
           [("static", VDict [("level_2", VDict [])])]
           "static" (VDict [("level_2", VDict [])]));
    try reflexivity.
  - left. reflexivity.
  - right. exists [("level_2", VDict [])], "level_2", (VDict []), "level_1".
    repeat split. left. reflexivity.
Defined.

Lemma redistribute_levels_consistent_witness :
  redistribute_levels level_1_2_static_level_2 = Ret tt.
Proof.
  apply (redistribute_levels_consistent level_1_2_static_level_2
           [("ipv4", VDict [("static", VDict [("level_2", VDict [])])])]
           [("static", VDict [("level_2", VDict [])])] "level_1_2");
    try reflexivity.
  intros proto proto_config [[= <- <-] | []].
  exists [("level_2", VDict [])]. repeat split.
Defined.

Lemma verify_accepts_ordered_labels_witness :
  exists low high : Z,
    py_int (dict_search "segment_routing.global_block.low_label_value"
              ordered_labels) = Ret low
    /\ py_int (dict_search "segment_routing.global_block.high_label_value"
                 ordered_labels) = Ret high
    /\ (low <= high)%Z.
Proof.
  exact (proj1 (verify_accepts_ordered_labels host in_order plain_repr
                  ordered_labels eq_refl eq_refl) eq_refl).
Defined.

Lemma verify_ignores_order_witness :
  verify host in_order plain_repr base_reordered = verify host in_order plain_repr base.
Proof.
  apply (verify_ignores_order host in_order plain_repr base_reordered base);
    try discriminate.
  intros k. simpl.
  destruct (String.eqb k "interface") eqn:E1;
    destruct (String.eqb k "net") eqn:E2;
    destruct (String.eqb k "domain") eqn:E3; try reflexivity;
    apply String.eqb_eq in E1 || apply String.eqb_eq in E2;
    subst k; discriminate.
Defined.

Lemma verify_after_generate_witness :
  verify host in_order plain_repr (generate render in_blue) = verify host in_order plain_repr in_blue.
Proof.
  apply (verify_after_generate host in_order plain_repr render in_blue).
  discriminate.
Defined.

Lemma apply_failure_commits_nothing_witness :
  apply base (World _ running 0)
  = (Raise (KeyError "new_frr_config"), World _ running 0)
  /\ apply vrf_is_list (World _ running 0)
     = (Raise TypeError, World _ running 0).
Proof.
  split.
  - apply (apply_failure_commits_nothing Re.re_match (list string) show take
             base (World _ running 0)) with (vrf := "");
      [discriminate | reflexivity | reflexivity].
  - apply (apply_failure_commits_nothing Re.re_match (list string) show take
             vrf_is_list (World _ running 0));
      [discriminate | reflexivity].
Defined.

Lemma apply_leaves_snapshot_witness :
  exists loaded snapshot,
    show frr_daemon running = Some loaded
    /\ apply_snapshot Re.re_match rendered loaded = Ret snapshot
    /\ show frr_daemon applied = Some snapshot.
Proof.
  assert (Hrun : apply rendered (World _ running 0) = (Ret tt, World _ applied 1))
    by (vm_compute; reflexivity).
  exact (apply_leaves_snapshot Re.re_match (list string) show take rendered
           (World _ running 0) (World _ applied 1) keeps_what_it_takes Hrun).
Defined.

Lemma apply_twice_same_configuration_witness :
  apply rendered (World _ running 0) = (Ret tt, World _ applied 1)
  /\ apply rendered (World _ applied 1) = (Ret tt, World _ applied 2)
  /\ show frr_daemon applied = show frr_daemon applied.
Proof.
  assert (Howned : owned_content Re.re_match rendered "" (VStr rendered_text))
    by (vm_compute; reflexivity).
  assert (Hfirst : apply rendered (World _ running 0)
                   = (Ret tt, World _ applied 1))
    by (vm_compute; reflexivity).
  assert (Hsecond : apply rendered (World _ applied 1)
                    = (Ret tt, World _ applied 2))
    by (vm_compute; reflexivity).
  split; [exact Hfirst|]. split; [exact Hsecond|].
  exact (apply_twice_same_configuration Re.re_match (list string) show take
           rendered "" (VStr rendered_text) (World _ running 0)
           (World _ applied 1) (World _ applied 2)
           keeps_what_it_takes eq_refl eq_refl Howned Hfirst Hsecond).
Defined.

Lemma main_validation_gate_witness :
  main_nd ["prog"] (World _ running 0)
  = (Exit 1 ["Routing domain name/tag must be set!"], World _ running 0).
Proof.
  destruct (main_validation_gate tree_without_domain always none_removed
              host in_order plain_repr render Re.re_match (list string)
              show take ["prog"] (World _ running 0)
              (ConfigError "Routing domain name/tag must be set!") eq_refl)
    as (_ & H & _).
  exact (H _ eq_refl).
Defined.

Lemma main_accepted_witness :
  exists w',
    main ["prog"] (World _ running 0) = (Exit 0 [], w') /\ commits w' = 1.
Proof.
  destruct (main_accepted tree tree_exists tree_removed host in_order plain_repr
              render Re.re_match (list string) show take ["prog"]
              (World _ running 0) running "" eq_refl eq_refl eq_refl
              takes_every_commit) as (w' & H & Hc).
  exists w'. split; [exact H | exact Hc].
Defined.

Lemma main_removes_tree_witness :
  exists w',
    main ["prog"; "red"] (World _ running 0) = (Exit 0 [], w')
    /\ commits w' = 6.
Proof.
  destruct (main_removes_tree tree tree_exists tree_removed host in_order
              plain_repr render Re.re_match (list string) show take
              ["prog"; "red"] (World _ running 0) running " vrf red"
              eq_refl eq_refl eq_refl takes_every_commit) as (w' & H & Hc).
  exists w'. split; [exact H | exact Hc].
Defined.

End MoreSamples.
